(** * pybotvac: the request signer and the command client of [robot.py]

    A shallow embedding of [src/pybotvac/robot.py].  Python [str] values are
    sequences of Unicode code points, [bytes] values are sequences of bytes,
    dictionaries are finite maps, and a method that can raise or that talks
    to the network is a computation in a small state-and-exception monad. *)

From Stdlib Require Import NArith ZArith Lia List Ascii String Strings.Byte.
From Stdlib Require Import Floats.PrimFloat.
From stdpp Require Import base option list gmap.

Local Open Scope N_scope.

(** ** Python values *)

(** A Python [str]: its code points, each below [0x110000]. *)
Abbreviation pystr := (list N).

(** A Python [bytes] object. *)
Abbreviation pybytes := (list byte).

(** The code points of an ASCII literal of the source. *)
Definition py (s : string) : pystr :=
  List.map N_of_ascii (list_ascii_of_string s).

(** The values that JSON documents and the arguments of the client are
    made of. *)
#[warnings="-register-all"]
Inductive pyval : Type :=
  | PNone
  | PBool (b : bool)
  | PInt (z : Z)
  | PFloat (x : float)
  | PStr (s : pystr)
  | PList (l : list pyval)
  | PDict (d : gmap pystr pyval).

(** The exceptions the program can meet. *)
Inductive PyExc : Type :=
  | Exception (msg : pystr)
  | KeyError (key : pystr)
  | TypeError
  | AttributeError (attr : pystr)
  | ValueError
  | UnicodeEncodeError
  | UnicodeDecodeError
  | HTTPError (status : Z)
  | ConnectionError.

(** The outcome of a Python expression: a value or a raised exception. *)
Inductive result (A : Type) : Type :=
  | Ok (a : A)
  | Raise (e : PyExc).
Arguments Ok {A} a.
Arguments Raise {A} e.

(** Computations over a mutable state [S] that may raise.  The state
    reached when the exception is raised is kept. *)
Definition M (S A : Type) : Type := S -> result A * S.

Definition ret {S A} (a : A) : M S A := fun s => (Ok a, s).

Definition raise {S A} (e : PyExc) : M S A := fun s => (Raise e, s).

Definition bind {S A B} (m : M S A) (k : A -> M S B) : M S B :=
  fun s => match m s with
           | (Ok a, s') => k a s'
           | (Raise e, s') => (Raise e, s')
           end.

Definition lift {S A} (r : result A) : M S A := fun s => (r, s).

Definition get {S} : M S S := fun s => (Ok s, s).

Definition modify {S} (f : S -> S) : M S unit := fun s => (Ok tt, f s).

Declare Scope py_scope.
Delimit Scope py_scope with pym.
Notation "x <- m ;; k" := (bind m (fun x => k))
  (at level 100, m at next level, right associativity) : py_scope.
Notation "m ;;; k" := (bind m (fun _ => k))
  (at level 100, right associativity) : py_scope.

(** ** Built-in operations of the interpreter *)

(** [obj[key]] with a [str] key. *)
Definition py_getitem (obj : pyval) (key : pystr) : result pyval :=
  match obj with
  | PDict d => match d !! key with
               | Some v => Ok v
               | None => Raise (KeyError key)
               end
  | _ => Raise TypeError
  end.

(** [obj == lit] for a [str] literal [lit]. *)
Definition py_eq_str (obj : pyval) (lit : pystr) : bool :=
  match obj with
  | PStr s => bool_decide (s = lit)
  | _ => false
  end.

(** [obj in [l0, l1, ...]] for a list of [str] literals. *)
Definition py_in_strs (obj : pyval) (lits : list pystr) : bool :=
  existsb (py_eq_str obj) lits.

(** [lit + obj] for a [str] literal [lit]. *)
Definition py_str_add (lit : pystr) (obj : pyval) : result pystr :=
  match obj with
  | PStr s => Ok (lit ++ s)
  | _ => Raise TypeError
  end.

(** The truth value of an object, as [if obj:] tests it. *)
Definition py_truthy (obj : pyval) : bool :=
  match obj with
  | PNone => false
  | PBool b => b
  | PInt z => negb (Z.eqb z 0)
  | PFloat x => negb (PrimFloat.eqb x PrimFloat.zero)
  | PStr s => negb (bool_decide (s = []))
  | PList l => match l with [] => false | _ => true end
  | PDict d => negb (bool_decide (d = ∅))
  end.

(** [sep.join(parts)]. *)
Fixpoint str_join (sep : pystr) (parts : list pystr) : pystr :=
  match parts with
  | [] => []
  | [p] => p
  | p :: rest => p ++ sep ++ str_join sep rest
  end.

(** ** UTF-8 *)

Definition byte_of_N (n : N) : byte :=
  default "000"%byte (Byte.of_N (n mod 256)).

Definition is_surrogate (c : N) : bool := (0xD800 <=? c) && (c <=? 0xDFFF).

(** A Unicode scalar value: a code point that is no surrogate. *)
Definition is_scalar (c : N) : bool := (c <? 0x110000) && negb (is_surrogate c).

(** The bytes of one code point; [None] for a surrogate and for a number
    that is no code point. *)
Definition utf8_encode_char (c : N) : option pybytes :=
  if c <? 0x80 then Some [byte_of_N c]
  else if c <? 0x800 then
    Some [byte_of_N (N.lor 0xC0 (N.shiftr c 6));
          byte_of_N (N.lor 0x80 (N.land c 0x3F))]
  else if c <? 0x10000 then
    if is_surrogate c then None
    else Some [byte_of_N (N.lor 0xE0 (N.shiftr c 12));
               byte_of_N (N.lor 0x80 (N.land (N.shiftr c 6) 0x3F));
               byte_of_N (N.lor 0x80 (N.land c 0x3F))]
  else if c <? 0x110000 then
    Some [byte_of_N (N.lor 0xF0 (N.shiftr c 18));
          byte_of_N (N.lor 0x80 (N.land (N.shiftr c 12) 0x3F));
          byte_of_N (N.lor 0x80 (N.land (N.shiftr c 6) 0x3F));
          byte_of_N (N.lor 0x80 (N.land c 0x3F))]
  else None.

(** [s.encode('utf8')]. *)
Fixpoint str_encode_utf8 (s : pystr) : result pybytes :=
  match s with
  | [] => Ok []
  | c :: rest =>
      match utf8_encode_char c with
      | None => Raise UnicodeEncodeError
      | Some bs =>
          match str_encode_utf8 rest with
          | Ok out => Ok (bs ++ out)
          | Raise e => Raise e
          end
      end
  end.

Definition is_cont (b : N) : bool := N.land b 0xC0 =? 0x80.

Definition cont_bits (b : N) : N := N.land b 0x3F.

(** [b.decode('utf8')], strict: truncated and overlong forms, surrogates
    and values above [0x10FFFF] are refused. *)
Fixpoint bytes_decode_utf8 (b : pybytes) : result pystr :=
  match b with
  | [] => Ok []
  | b0 :: r0 =>
      let n0 := Byte.to_N b0 in
      let emit (c : N) (tail : result pystr) : result pystr :=
        match tail with
        | Ok s => Ok (c :: s)
        | Raise e => Raise e
        end in
      if n0 <? 0x80 then emit n0 (bytes_decode_utf8 r0)
      else if n0 <? 0xC0 then Raise UnicodeDecodeError
      else
        match r0 with
        | [] => Raise UnicodeDecodeError
        | b1 :: r1 =>
            let n1 := Byte.to_N b1 in
            if negb (is_cont n1) then Raise UnicodeDecodeError
            else if n0 <? 0xE0 then
              let c := N.lor (N.shiftl (N.land n0 0x1F) 6) (cont_bits n1) in
              if c <? 0x80 then Raise UnicodeDecodeError
              else emit c (bytes_decode_utf8 r1)
            else
              match r1 with
              | [] => Raise UnicodeDecodeError
              | b2 :: r2 =>
                  let n2 := Byte.to_N b2 in
                  if negb (is_cont n2) then Raise UnicodeDecodeError
                  else if n0 <? 0xF0 then
                    let c := N.lor (N.shiftl (N.land n0 0x0F) 12)
                               (N.lor (N.shiftl (cont_bits n1) 6) (cont_bits n2)) in
                    if (c <? 0x800) || is_surrogate c then Raise UnicodeDecodeError
                    else emit c (bytes_decode_utf8 r2)
                  else
                    match r2 with
                    | [] => Raise UnicodeDecodeError
                    | b3 :: r3 =>
                        let n3 := Byte.to_N b3 in
                        if negb (is_cont n3) then Raise UnicodeDecodeError
                        else if n0 <? 0xF8 then
                          let c := N.lor (N.shiftl (N.land n0 0x07) 18)
                                     (N.lor (N.shiftl (cont_bits n1) 12)
                                        (N.lor (N.shiftl (cont_bits n2) 6) (cont_bits n3))) in
                          if (c <? 0x10000) || (0x10FFFF <? c) then Raise UnicodeDecodeError
                          else emit c (bytes_decode_utf8 r3)
                        else Raise UnicodeDecodeError
                    end
              end
        end
  end.

(** ** SHA-256 and HMAC, as [hmac.new(..., digestmod='sha256')] computes them *)

Definition add32 (x y : N) : N := (x + y) mod 2 ^ 32.

Definition rotr32 (k x : N) : N :=
  N.lor (N.shiftr x k) (N.shiftl x (32 - k) mod 2 ^ 32).

Definition not32 (x : N) : N := N.lxor x 0xFFFFFFFF.

Definition ch (e f g : N) : N := N.lxor (N.land e f) (N.land (not32 e) g).

Definition maj (a b c : N) : N :=
  N.lxor (N.lxor (N.land a b) (N.land a c)) (N.land b c).

Definition big_sigma0 (a : N) : N :=
  N.lxor (N.lxor (rotr32 2 a) (rotr32 13 a)) (rotr32 22 a).

Definition big_sigma1 (e : N) : N :=
  N.lxor (N.lxor (rotr32 6 e) (rotr32 11 e)) (rotr32 25 e).

Definition small_sigma0 (w : N) : N :=
  N.lxor (N.lxor (rotr32 7 w) (rotr32 18 w)) (N.shiftr w 3).

Definition small_sigma1 (w : N) : N :=
  N.lxor (N.lxor (rotr32 17 w) (rotr32 19 w)) (N.shiftr w 10).

(** The constants of the hash are the leading fractional bits of the square
    and cube roots of the first primes. *)
Definition is_prime (p : N) : bool :=
  (2 <=? p) && forallb (fun d => negb (p mod d =? 0))
                 (List.map N.of_nat (seq 2 (N.to_nat p - 2))).

Definition primes64 : list N :=
  Eval vm_compute in List.filter is_prime (List.map N.of_nat (seq 0 312)).

(** The largest [r] with [r ^ 3 <= x], found bit by bit below [2 ^ bits]. *)
Fixpoint icbrt (bits : nat) (x r : N) : N :=
  match bits with
  | O => r
  | S b =>
      let r' := r + 2 ^ N.of_nat b in
      icbrt b x (if r' * r' * r' <=? x then r' else r)
  end.

Definition sha256_K : list N :=
  Eval vm_compute in
    List.map (fun p => icbrt 40 (p * 2 ^ 96) 0 mod 2 ^ 32) primes64.

Definition sha256_H0 : list N :=
  Eval vm_compute in
    List.map (fun p => N.sqrt (p * 2 ^ 64) mod 2 ^ 32) (firstn 8 primes64).

(** Big-endian words. *)
Definition be_bytes (width : nat) (x : N) : pybytes :=
  List.map (fun i => byte_of_N (N.shiftr x (8 * N.of_nat i))) (rev (seq 0 width)).

Definition be_word (bs : pybytes) : N :=
  fold_left (fun acc b => acc * 256 + Byte.to_N b) bs 0.

(** The message followed by the bit 1, zeros up to 56 modulo 64 bytes and
    the length in bits on 8 bytes. *)
Definition sha256_pad (msg : pybytes) : pybytes :=
  let len := N.of_nat (length msg) in
  let zeros := (64 - (len + 9) mod 64) mod 64 in
  msg ++ ["128"%byte] ++ repeat "000"%byte (N.to_nat zeros) ++ be_bytes 8 (8 * len).

Fixpoint chunks {A} (size fuel : nat) (l : list A) : list (list A) :=
  match fuel with
  | O => []
  | S fuel' =>
      match l with
      | [] => []
      | _ => firstn size l :: chunks size fuel' (skipn size l)
      end
  end.

(** The sixteen words of the schedule that follow word [t], given the
    sixteen from [t] on. *)
Definition schedule_next (w : list N) : list N :=
  tl w ++ [add32 (add32 (add32 (small_sigma1 (nth 14 w 0)) (nth 9 w 0))
                    (small_sigma0 (nth 1 w 0))) (nth 0 w 0)].

Definition sha256_round (k w : N) (s : list N) : list N :=
  match s with
  | [a; b; c; d; e; f; g; h] =>
      let t1 := add32 (add32 (add32 (add32 h (big_sigma1 e)) (ch e f g)) k) w in
      let t2 := add32 (big_sigma0 a) (maj a b c) in
      [add32 t1 t2; a; b; c; add32 d t1; e; f; g]
  | _ => s
  end.

Fixpoint sha256_rounds (ks w s : list N) : list N :=
  match ks with
  | [] => s
  | k :: ks' => sha256_rounds ks' (schedule_next w) (sha256_round k (nth 0 w 0) s)
  end.

Definition sha256_block (s : list N) (block : pybytes) : list N :=
  let w := List.map be_word (chunks 4 16 block) in
  zip_with add32 s (sha256_rounds sha256_K w s).

Definition sha256 (msg : pybytes) : pybytes :=
  let padded := sha256_pad msg in
  let blocks := chunks 64 (length padded) padded in
  concat (List.map (be_bytes 4) (fold_left sha256_block blocks sha256_H0)).

Definition xor_bytes (pad : N) (bs : pybytes) : pybytes :=
  List.map (fun b => byte_of_N (N.lxor (Byte.to_N b) pad)) bs.

(** [hmac.new(key, msg, 'sha256').digest()]: a key longer than the block
    is hashed first, then padded with zeros to the block size. *)
Definition hmac_sha256 (key msg : pybytes) : pybytes :=
  let key' := if (64 <? length key)%nat then sha256 key else key in
  let block := key' ++ repeat "000"%byte (64 - length key') in
  sha256 (xor_bytes 0x5C block ++ sha256 (xor_bytes 0x36 block ++ msg)).

Definition hex_digit (n : N) : N :=
  if n <? 10 then 48 + n else 87 + n.

(** [.hexdigest()]: two lowercase hexadecimal digits per byte. *)
Definition hexdigest (bs : pybytes) : pystr :=
  concat (List.map (fun b => let n := Byte.to_N b in
                             [hex_digit (n / 16); hex_digit (n mod 16)]) bs).

Definition ascii_bytes (s : string) : pybytes :=
  List.map byte_of_ascii (list_ascii_of_string s).

(** ** [str.lower] *)

Definition ascii_lower (c : N) : N :=
  if (65 <=? c) && (c <=? 90) then c + 32 else c.

Definition is_ascii (s : pystr) : bool := forallb (fun c => c <? 128) s.

(** [s.lower()].  A string of ASCII characters is lowered character by
    character; any other string goes through the case tables of the Unicode
    database, which the interpreter supplies as [unicode_lower]. *)
Definition str_lower (unicode_lower : pystr -> pystr) (s : pystr) : pystr :=
  if is_ascii s then List.map ascii_lower s else unicode_lower s.

(** ** Requests and their headers *)

(** What the signer needs of [request.headers]: item assignment, and item
    lookup to observe it.  [same_header k k'] tells whether two names address
    the same entry. *)
Class HeaderMap (H : Type) : Type := {
  same_header : pystr -> pystr -> bool;
  header_get : H -> pystr -> option pystr;
  header_set : pystr -> pystr -> H -> H
}.

(** Assignment is seen by the names of the same entry and by no other. *)
Class HeaderMapLaws (H : Type) `{HeaderMap H} : Prop := {
  header_get_set : forall (h : H) (k v k' : pystr),
    header_get (header_set k v h) k' =
      if same_header k k' then Some v else header_get h k';
  same_header_refl : forall k : pystr, same_header k k = true
}.

(** A plain [dict] of headers. *)
#[export] Instance dict_HeaderMap : HeaderMap (gmap pystr pystr) := {|
  same_header k k' := bool_decide (k = k');
  header_get h k := h !! k;
  header_set k v h := <[k := v]> h
|}.

(** The [CaseInsensitiveDict] of [requests]: entries are stored under the
    lowered name, with the name as last written. *)
Definition cidict_HeaderMap (unicode_lower : pystr -> pystr)
  : HeaderMap (gmap pystr (pystr * pystr)) := {|
  same_header k k' :=
    bool_decide (str_lower unicode_lower k = str_lower unicode_lower k');
  header_get h k := snd <$> h !! str_lower unicode_lower k;
  header_set k v h := <[str_lower unicode_lower k := (k, v)]> h
|}.

(** The prepared request handed to an authentication hook. *)
Record Request (H : Type) : Type := mkRequest {
  method : pystr;
  url : pystr;
  headers : H;
  body : pybytes
}.
Arguments mkRequest {H} _ _ _ _.
Arguments method {H} _.
Arguments url {H} _.
Arguments headers {H} _.
Arguments body {H} _.

(** [request.headers[k] = v]. *)
Definition headers_setitem {H} `{HeaderMap H} (k v : pystr)
  : M (Request H) unit :=
  modify (fun r => mkRequest (method r) (url r) (header_set k v (headers r)) (body r)).

Definition NL : pystr := [10].

(** ** class Auth *)

Module Auth.

Record t : Type := mk {
  serial : pystr;
  secret : pystr
}.

(** [Auth(serial, secret)]. *)
Definition __init__ (serial secret : pystr) : t := mk serial secret.

Section Call.
Variable unicode_lower : pystr -> pystr.
Context {H : Type} `{HeaderMap H}.

(** [Auth.__call__(self, request)].  [now] is what
    [time.strftime('%a, %d %h %Y %H:%M:%S', time.gmtime())] returns at the
    call.  The request is the state: it is changed in place and handed
    back. *)
Definition __call__ (self : t) (now : pystr) : M (Request H) unit :=
  (let date := now ++ py " GMT" in
   key <- lift (str_encode_utf8 (secret self));;
   request <- get;;
   text <- lift (bytes_decode_utf8 (body request));;
   msg <- lift (str_encode_utf8
                  (str_join NL [str_lower unicode_lower (serial self); date; text]));;
   let signing := hmac_sha256 key msg in
   headers_setitem (py "Date") date;;;
   headers_setitem (py "Authorization") (py "NEATOAPP " ++ hexdigest signing))%pym.
End Call.

End Auth.

(** ** The transport: [requests.post] and its responses *)

(** One call [requests.post(url, json=..., verify=..., auth=..., headers=...)]. *)
Record PostCall : Type := mkPost {
  post_url : pystr;
  post_json : pyval;
  post_verify : pystr;
  post_auth : Auth.t;
  post_headers : gmap pystr pystr
}.

(** The response object: its status and what [.json()] gives, which raises
    when the body is no JSON document. *)
Record Response : Type := mkResponse {
  status_code : Z;
  response_json : result pyval
}.

(** [response.raise_for_status()]. *)
Definition raise_for_status (r : Response) : result unit :=
  if ((400 <=? status_code r) && (status_code r <? 600))%Z
  then Raise (HTTPError (status_code r))
  else Ok tt.

(** What is left of the answer of [requests.post] once the status has been
    checked with [raise_for_status]. *)
Definition checked (answer : result Response) : result Response :=
  match answer with
  | Ok r => match raise_for_status r with
            | Ok _ => Ok r
            | Raise e => Raise e
            end
  | Raise e => Raise e
  end.

(** [os.path.join(a, b)] on a POSIX system. *)
Definition os_path_join (a b : pystr) : pystr :=
  match b with
  | 47 :: _ => b
  | _ => match last a with
         | None | Some 47 => a ++ b
         | Some _ => a ++ 47 :: b
         end
  end.

(** The version strings of the [houseCleaning] service the client knows. *)
Definition known_versions : list pystr :=
  [py "basic-1"; py "minimal-2"; py "basic-2"].

(** ** class Robot *)

Module Robot.

Record t : Type := mk {
  name : pyval;
  serial : pystr;
  secret : pystr;
  traits : pyval;
  _url : pystr;
  _headers : gmap pystr pystr;
  (** [None] until [__init__] has bound the attribute. *)
  availableServices : option pyval
}.

(** [self.availableServices]. *)
Definition getattr_availableServices (self : t) : result pyval :=
  match availableServices self with
  | Some v => Ok v
  | None => Raise (AttributeError (py "availableServices"))
  end.

Section Methods.
(** The directory of the module, [os.path.dirname(__file__)]. *)
Variable module_dir : pystr.
(** What [requests.post] answers to a call, given the calls made before:
    a response, or the exception it raises. *)
Variable requests_post : list PostCall -> PostCall -> result Response.

(** The state of a method is the list of the calls of [requests.post]
    made so far. *)
Definition post (c : PostCall) : M (list PostCall) Response :=
  fun calls => (requests_post calls c, calls ++ [c]).

Definition _message (self : t) (json : pyval) : M (list PostCall) Response :=
  (let cert_path :=
     os_path_join (os_path_join module_dir (py "cert")) (py "neatocloud.com.crt") in
   response <- post (mkPost (_url self) json cert_path
                       (Auth.__init__ (serial self) (secret self))
                       (_headers self));;
   lift (raise_for_status response);;;
   ret response)%pym.

(** [start_cleaning(self, mode=2, navigationMode=2)]; an argument that
    is left out is [None] here. *)
Definition start_cleaning (self : t) (mode navigationMode : option pyval)
  : M (list PostCall) Response :=
  (let mode := default (PInt 2) mode in
   let navigationMode := default (PInt 2) navigationMode in
   services <- lift (getattr_availableServices self);;
   serviceVersion <- lift (py_getitem services (py "houseCleaning"));;
   json <-
     (if py_eq_str serviceVersion (py "basic-1") then
        ret (PDict {[ py "reqId" := PStr (py "1");
                      py "cmd" := PStr (py "startCleaning");
                      py "params" := PDict {[ py "category" := PInt 2;
                                              py "mode" := mode;
                                              py "modifier" := PInt 1 ]} ]})
      else if py_eq_str serviceVersion (py "minimal-2") then
        ret (PDict {[ py "reqId" := PStr (py "1");
                      py "cmd" := PStr (py "startCleaning");
                      py "params" := PDict {[ py "category" := PInt 2;
                                              py "navigationMode" := navigationMode ]} ]})
      else if py_eq_str serviceVersion (py "basic-2") then
        ret (PDict {[ py "reqId" := PStr (py "1");
                      py "cmd" := PStr (py "startCleaning");
                      py "params" := PDict {[ py "category" := PInt 2;
                                              py "mode" := mode;
                                              py "modifier" := PInt 1;
                                              py "navigationMode" := navigationMode ]} ]})
      else
        version <- lift (py_str_add (py "Version ") serviceVersion);;
        raise (Exception (version ++ py " of service houseCleaning is not known")));;
   _message self json)%pym.

Definition pause_cleaning (self : t) : M (list PostCall) Response :=
  (services <- lift (getattr_availableServices self);;
   serviceVersion <- lift (py_getitem services (py "houseCleaning"));;
   (if negb (py_in_strs serviceVersion [py "basic-1"; py "minimal-2"; py "basic-2"]) then
      version <- lift (py_str_add (py "Version ") serviceVersion);;
      raise (Exception (version ++ py " of service houseCleaning is not known"))
    else ret tt);;;
   _message self (PDict {[ py "reqId" := PStr (py "1"); py "cmd" := PStr (py "pauseCleaning") ]}))%pym.

Definition resume_cleaning (self : t) : M (list PostCall) Response :=
  (services <- lift (getattr_availableServices self);;
   serviceVersion <- lift (py_getitem services (py "houseCleaning"));;
   (if negb (py_in_strs serviceVersion [py "basic-1"; py "minimal-2"; py "basic-2"]) then
      version <- lift (py_str_add (py "Version ") serviceVersion);;
      raise (Exception (version ++ py " of service houseCleaning is not known"))
    else ret tt);;;
   _message self (PDict {[ py "reqId" := PStr (py "1"); py "cmd" := PStr (py "resumeCleaning") ]}))%pym.

Definition stop_cleaning (self : t) : M (list PostCall) Response :=
  (services <- lift (getattr_availableServices self);;
   serviceVersion <- lift (py_getitem services (py "houseCleaning"));;
   (if negb (py_in_strs serviceVersion [py "basic-1"; py "minimal-2"; py "basic-2"]) then
      version <- lift (py_str_add (py "Version ") serviceVersion);;
      raise (Exception (version ++ py " of service houseCleaning is not known"))
    else ret tt);;;
   _message self (PDict {[ py "reqId" := PStr (py "1"); py "cmd" := PStr (py "stopCleaning") ]}))%pym.

Definition send_to_base (self : t) : M (list PostCall) Response :=
  (services <- lift (getattr_availableServices self);;
   serviceVersion <- lift (py_getitem services (py "houseCleaning"));;
   (if negb (py_in_strs serviceVersion [py "basic-1"; py "minimal-2"; py "basic-2"]) then
      version <- lift (py_str_add (py "Version ") serviceVersion);;
      raise (Exception (version ++ py " of service houseCleaning is not known"))
    else ret tt);;;
   _message self (PDict {[ py "reqId" := PStr (py "1"); py "cmd" := PStr (py "sendToBase") ]}))%pym.

Definition get_robot_state (self : t) : M (list PostCall) Response :=
  _message self (PDict {[ py "reqId" := PStr (py "1"); py "cmd" := PStr (py "getRobotState") ]}).

Definition enable_schedule (self : t) : M (list PostCall) Response :=
  _message self (PDict {[ py "reqId" := PStr (py "1"); py "cmd" := PStr (py "enableSchedule") ]}).

Definition disable_schedule (self : t) : M (list PostCall) Response :=
  _message self (PDict {[ py "reqId" := PStr (py "1"); py "cmd" := PStr (py "disableSchedule") ]}).

Definition get_schedule (self : t) : M (list PostCall) Response :=
  _message self (PDict {[ py "reqId" := PStr (py "1"); py "cmd" := PStr (py "getSchedule") ]}).

(** The property [schedule_enabled], read. *)
Definition schedule_enabled (self : t) : M (list PostCall) pyval :=
  (response <- get_robot_state self;;
   doc <- lift (response_json response);;
   details <- lift (py_getitem doc (py "details"));;
   lift (py_getitem details (py "isScheduleEnabled")))%pym.

(** The property [schedule_enabled], written: [robot.schedule_enabled = enable]. *)
Definition set_schedule_enabled (self : t) (enable : pyval) : M (list PostCall) unit :=
  (if py_truthy enable then enable_schedule self;;; ret tt
   else disable_schedule self;;; ret tt)%pym.

(** The property [state]. *)
Definition state (self : t) : M (list PostCall) pyval :=
  (response <- get_robot_state self;;
   lift (response_json response))%pym.

(** [Robot(serial, secret, traits, name='')]. *)
Definition __init__ (serial secret : pystr) (traits : pyval) (name : option pyval)
  : M (list PostCall) t :=
  (let name := default (PStr []) name in
   let self := mk name serial secret traits
                 (py "https://nucleo.neatocloud.com/vendors/neato/robots/"
                    ++ serial ++ py "/messages")
                 {[ py "Accept" := py "application/vnd.neato.nucleo.v1" ]}
                 None in
   doc <- state self;;
   services <- lift (py_getitem doc (py "availableServices"));;
   ret (mk name serial secret traits (_url self) (_headers self) (Some services)))%pym.

(** The public operations of the client that send a command. *)
Inductive operation : Type :=
  | StartCleaning (mode navigationMode : option pyval)
  | PauseCleaning
  | ResumeCleaning
  | StopCleaning
  | SendToBase
  | GetRobotState
  | EnableSchedule
  | DisableSchedule
  | GetSchedule.

Definition run (self : t) (op : operation) : M (list PostCall) Response :=
  match op with
  | StartCleaning mode navigationMode => start_cleaning self mode navigationMode
  | PauseCleaning => pause_cleaning self
  | ResumeCleaning => resume_cleaning self
  | StopCleaning => stop_cleaning self
  | SendToBase => send_to_base self
  | GetRobotState => get_robot_state self
  | EnableSchedule => enable_schedule self
  | DisableSchedule => disable_schedule self
  | GetSchedule => get_schedule self
  end.
End Methods.

End Robot.

(** The exception raised for a version of [houseCleaning] that is not
    known: it carries the version in its message. *)
Definition UnsupportedServiceVersion (version : pystr) : PyExc :=
  Exception (py "Version " ++ version ++ py " of service houseCleaning is not known").

(** The payload of a call carries [reqId] with the value ["1"]. *)
Definition has_reqId_1 (c : PostCall) : Prop :=
  py_getitem (post_json c) (py "reqId") = Ok (PStr (py "1")).

(** ** Auxiliary definitions for the properties of the whole program *)

(** The call that [_message] makes for a payload. *)
Definition message_call (module_dir : pystr) (self : Robot.t) (json : pyval) : PostCall :=
  mkPost (Robot._url self) json
    (os_path_join (os_path_join module_dir (py "cert")) (py "neatocloud.com.crt"))
    (Auth.__init__ (Robot.serial self) (Robot.secret self))
    (Robot._headers self).

(** The payload of a command without parameters. *)
Definition command (cmd : pystr) : pyval :=
  PDict {[ py "reqId" := PStr (py "1"); py "cmd" := PStr cmd ]}.

(** The command each operation sends. *)
Definition command_name (op : Robot.operation) : pystr :=
  match op with
  | Robot.StartCleaning _ _ => py "startCleaning"
  | Robot.PauseCleaning => py "pauseCleaning"
  | Robot.ResumeCleaning => py "resumeCleaning"
  | Robot.StopCleaning => py "stopCleaning"
  | Robot.SendToBase => py "sendToBase"
  | Robot.GetRobotState => py "getRobotState"
  | Robot.EnableSchedule => py "enableSchedule"
  | Robot.DisableSchedule => py "disableSchedule"
  | Robot.GetSchedule => py "getSchedule"
  end.

(** The object [__init__] builds, with the attribute [availableServices]
    as given. *)
Definition built_robot (serial secret : pystr) (traits : pyval) (name : option pyval)
    (services : option pyval) : Robot.t :=
  Robot.mk (default (PStr []) name) serial secret traits
    (py "https://nucleo.neatocloud.com/vendors/neato/robots/" ++ serial ++ py "/messages")
    {[ py "Accept" := py "application/vnd.neato.nucleo.v1" ]}
    services.

(** A lowercase hexadecimal digit. *)
Definition is_hex_digit (c : N) : bool :=
  ((48 <=? c) && (c <=? 57)) || ((97 <=? c) && (c <=? 102)).

(** Every byte, in order. *)
Definition all_bytes : list byte :=
  List.map byte_of_N (List.map N.of_nat (seq 0 256)).

(** [f] holds of every byte that passes the guard [g]. *)
Definition guarded (g f : byte -> bool) : bool :=
  forallb (fun b => if g b then f b else true) all_bytes.

(** The code points the decoder computes from two, three and four bytes. *)
Definition code2 (b0 b1 : byte) : N :=
  N.lor (N.shiftl (N.land (to_N b0) 0x1F) 6) (cont_bits (to_N b1)).

Definition code3 (b0 b1 b2 : byte) : N :=
  N.lor (N.shiftl (N.land (to_N b0) 0x0F) 12)
    (N.lor (N.shiftl (cont_bits (to_N b1)) 6) (cont_bits (to_N b2))).

Definition code4 (b0 b1 b2 b3 : byte) : N :=
  N.lor (N.shiftl (N.land (to_N b0) 0x07) 18)
    (N.lor (N.shiftl (cont_bits (to_N b1)) 12)
       (N.lor (N.shiftl (cont_bits (to_N b2)) 6) (cont_bits (to_N b3)))).

(** A lead byte of the range from [lo] up to [hi], and a continuation
    byte. *)
Definition lead (lo hi : N) (b : byte) : bool :=
  negb (to_N b <? lo) && (to_N b <? hi).

Definition cont (b : byte) : bool := is_cont (to_N b).

(** The operations that read the version of [houseCleaning]. *)
Definition needs_version (op : Robot.operation) : bool :=
  match op with
  | Robot.StartCleaning _ _ | Robot.PauseCleaning | Robot.ResumeCleaning
  | Robot.StopCleaning | Robot.SendToBase => true
  | _ => false
  end.

(** The robot with another catalogue, or none. *)
Definition with_services (self : Robot.t) (services : option pyval) : Robot.t :=
  Robot.mk (Robot.name self) (Robot.serial self) (Robot.secret self) (Robot.traits self)
    (Robot._url self) (Robot._headers self) services.

(** What an operation that reads the version of [houseCleaning] does once
    it has read it as [sv]; the methods are shown to unfold to it. *)
Definition after_version_of (module_dir : pystr)
    (requests_post : list PostCall -> PostCall -> result Response)
    (self : Robot.t) (op : Robot.operation) (sv : pyval)
    (calls : list PostCall) : result Response * list PostCall :=
  let refused :=
    match py_str_add (py "Version ") sv with
    | Ok version =>
        (Raise (Exception (version ++ py " of service houseCleaning is not known")), calls)
    | Raise e => (Raise e, calls)
    end in
  match op with
  | Robot.StartCleaning mode navigationMode =>
      let mode := default (PInt 2) mode in
      let navigationMode := default (PInt 2) navigationMode in
      if py_eq_str sv (py "basic-1") then
        Robot._message module_dir requests_post self
          (PDict {[ py "reqId" := PStr (py "1");
                    py "cmd" := PStr (py "startCleaning");
                    py "params" := PDict {[ py "category" := PInt 2;
                                            py "mode" := mode;
                                            py "modifier" := PInt 1 ]} ]}) calls
      else if py_eq_str sv (py "minimal-2") then
        Robot._message module_dir requests_post self
          (PDict {[ py "reqId" := PStr (py "1");
                    py "cmd" := PStr (py "startCleaning");
                    py "params" := PDict {[ py "category" := PInt 2;
                                            py "navigationMode" := navigationMode ]} ]}) calls
      else if py_eq_str sv (py "basic-2") then
        Robot._message module_dir requests_post self
          (PDict {[ py "reqId" := PStr (py "1");
                    py "cmd" := PStr (py "startCleaning");
                    py "params" := PDict {[ py "category" := PInt 2;
                                            py "mode" := mode;
                                            py "modifier" := PInt 1;
                                            py "navigationMode" := navigationMode ]} ]}) calls
      else refused
  | _ =>
      if py_in_strs sv known_versions
      then Robot._message module_dir requests_post self (command (command_name op)) calls
      else refused
  end.

(** ** Sample data *)

(** The bytes of a literal in which ['] stands for the double quote. *)
Definition json_bytes (s : string) : pybytes :=
  List.map (fun a => if Ascii.eqb a "'"%char then byte_of_N 34 else byte_of_ascii a)
    (list_ascii_of_string s).

Definition sample_auth : Auth.t :=
  Auth.__init__ (py "OPS01234-0123456789AB") (py "sEcReT").

Definition sample_now : pystr := py "Wed, 04 Nov 2026 10:00:00".

Definition sample_request : Request (gmap pystr pystr) :=
  mkRequest (py "POST")
    (py "https://nucleo.neatocloud.com/vendors/neato/robots/OPS01234-0123456789AB/messages")
    {[ py "Accept" := py "application/vnd.neato.nucleo.v1";
       py "Content-Type" := py "application/json" ]}
    (json_bytes "{'reqId': '1', 'cmd': 'getRobotState'}").

(** A request with the same body and nothing else in common. *)
Definition bare_request : Request (gmap pystr pystr) :=
  mkRequest (py "PUT") (py "http://localhost/") ∅
    (json_bytes "{'reqId': '1', 'cmd': 'getRobotState'}").

Definition sample_dir : pystr := py "/usr/lib/python3/site-packages/pybotvac".

(** The state document of a robot that offers [houseCleaning] in the given
    version. *)
Definition sample_state (version : pystr) : pyval :=
  PDict {[ py "availableServices" := PDict {[ py "houseCleaning" := PStr version ]};
           py "details" := PDict {[ py "isScheduleEnabled" := PBool true ]} ]}.

(** A server that answers every call with that document. *)
Definition sample_server (version : pystr)
  : list PostCall -> PostCall -> result Response :=
  fun _ _ => Ok (mkResponse 200 (Ok (sample_state version))).

(** A server that answers with a page that is no JSON document. *)
Definition html_server : list PostCall -> PostCall -> result Response :=
  fun _ _ => Ok (mkResponse 200 (Raise ValueError)).

Definition sample_robot (version : pystr) : Robot.t :=
  Robot.mk (PStr (py "Rosie")) (py "OPS01234-0123456789AB") (py "sEcReT") (PList [])
    (py "https://nucleo.neatocloud.com/vendors/neato/robots/OPS01234-0123456789AB/messages")
    {[ py "Accept" := py "application/vnd.neato.nucleo.v1" ]}
    (Some (PDict {[ py "houseCleaning" := PStr version ]})).


(** A server that answers every call with the given status. *)
Definition status_server (status : Z)
  : list PostCall -> PostCall -> result Response :=
  fun _ _ => Ok (mkResponse status (Ok PNone)).

(** A server that cannot be reached. *)
Definition down_server : list PostCall -> PostCall -> result Response :=
  fun _ _ => Raise ConnectionError.

(** A server whose state document is empty. *)
Definition empty_doc_server : list PostCall -> PostCall -> result Response :=
  fun _ _ => Ok (mkResponse 200 (Ok (PDict ∅))).

(** * Properties *)

(** ** The hash on published vectors *)

Example sha256_abc :
  hexdigest (sha256 (ascii_bytes "abc")) =
  py "ba7816bf8f01cfea414140de5dae2223b00361a396177a9cb410ff61f20015ad".
Proof. vm_compute. reflexivity. Qed.

Example sha256_K_ends :
  hd 0 sha256_K = 0x428a2f98 /\ last sha256_K = Some 0xc67178f2 /\
  length sha256_K = 64%nat.
Proof. vm_compute. auto. Qed.

Example hmac_sha256_rfc4231_case2 :
  hexdigest (hmac_sha256 (ascii_bytes "Jefe") (ascii_bytes "what do ya want for nothing?")) =
  py "5bdcc146bf60754e6a042426089575c75a003f089d2739839dec58b964ec3843".
Proof. vm_compute. reflexivity. Qed.

Example utf8_samples :
  str_encode_utf8 [0x41; 0xE9; 0x20AC; 0x1F600] =
    Ok (List.map byte_of_N [0x41; 0xC3; 0xA9; 0xE2; 0x82; 0xAC; 0xF0; 0x9F; 0x98; 0x80]) /\
  bytes_decode_utf8 (List.map byte_of_N [0x41; 0xC3; 0xA9; 0xE2; 0x82; 0xAC; 0xF0; 0x9F; 0x98; 0x80]) =
    Ok [0x41; 0xE9; 0x20AC; 0x1F600] /\
  str_encode_utf8 [0xD800] = Raise UnicodeEncodeError /\
  bytes_decode_utf8 [byte_of_N 0xC0; byte_of_N 0x80] = Raise UnicodeDecodeError /\
  bytes_decode_utf8 [byte_of_N 0xED; byte_of_N 0xA0; byte_of_N 0x80] = Raise UnicodeDecodeError /\
  bytes_decode_utf8 [byte_of_N 0xFF] = Raise UnicodeDecodeError.
Proof. vm_compute. repeat split. Qed.

(** ** The header mappings are lawful *)

#[export] Instance dict_HeaderMapLaws : HeaderMapLaws (gmap pystr pystr).
Proof.
  split.
  - intros h k v k'. cbn. rewrite lookup_insert.
    case_decide; case_bool_decide; congruence.
  - intros k. cbn. by apply bool_decide_eq_true_2.
Qed.

Lemma cidict_HeaderMapLaws (unicode_lower : pystr -> pystr) :
  @HeaderMapLaws _ (cidict_HeaderMap unicode_lower).
Proof.
  split.
  - intros h k v k'. cbn. rewrite lookup_insert.
    case_decide; case_bool_decide; try congruence; done.
  - intros k. cbn. by apply bool_decide_eq_true_2.
Qed.

(** ** UTF-8: strings of scalar values encode, and decoding yields them *)

Lemma lor_lt_pow2 (a b n : N) : a < 2 ^ n -> b < 2 ^ n -> N.lor a b < 2 ^ n.
Proof.
  intros Ha Hb.
  destruct (N.eq_dec (N.lor a b) 0) as [->|Hne].
  - apply N.neq_0_lt_0, N.pow_nonzero. discriminate.
  - apply N.log2_lt_pow2; [lia|].
    rewrite N.log2_lor.
    destruct (N.eq_dec a 0) as [->|Ha0], (N.eq_dec b 0) as [->|Hb0].
    + contradiction.
    + rewrite N.max_r by apply N.le_0_l. apply N.log2_lt_pow2; lia.
    + rewrite N.max_l by apply N.le_0_l. apply N.log2_lt_pow2; lia.
    + apply N.max_lub_lt; apply N.log2_lt_pow2; lia.
Qed.

Lemma shiftl_land_lt (x m k n : N) :
  (m + 1) * 2 ^ k <= 2 ^ n -> N.shiftl (N.land x m) k < 2 ^ n.
Proof.
  intros Hm. rewrite N.shiftl_mul_pow2.
  pose proof (N.land_le_r x m).
  assert (0 < 2 ^ k) by (apply N.neq_0_lt_0, N.pow_nonzero; discriminate).
  nia.
Qed.

Lemma cont_bits_lt (x n : N) : 64 <= 2 ^ n -> cont_bits x < 2 ^ n.
Proof.
  intros Hn. unfold cont_bits. pose proof (N.land_le_r x 0x3F). lia.
Qed.

Lemma is_scalar_intro (c : N) :
  c < 0x110000 -> c < 0xD800 \/ 0xDFFF < c -> is_scalar c = true.
Proof.
  intros Hc Hs. unfold is_scalar, is_surrogate.
  apply andb_true_intro. split; [by apply N.ltb_lt|].
  apply negb_true_iff, andb_false_iff.
  destruct Hs; [left | right]; by apply N.leb_gt.
Qed.

Lemma is_surrogate_false (c : N) :
  is_surrogate c = false -> c < 0xD800 \/ 0xDFFF < c.
Proof.
  unfold is_surrogate. intros Hs. apply andb_false_iff in Hs.
  destruct Hs as [Hs|Hs]; apply N.leb_gt in Hs; auto.
Qed.

Ltac decode_step H :=
  match type of H with
  | context [if ?c then _ else _] => destruct c eqn:?; try discriminate H
  | context [match ?l with [] => _ | _ :: _ => _ end] =>
      destruct l; try discriminate H
  | context [match bytes_decode_utf8 ?r with Ok _ => _ | Raise _ => _ end] =>
      destruct (bytes_decode_utf8 r) eqn:?; try discriminate H
  end.

Ltac bits_lt n :=
  repeat apply lor_lt_pow2;
  first [ apply (shiftl_land_lt _ _ _ n); vm_compute; discriminate
        | apply (cont_bits_lt _ n); vm_compute; discriminate ].

Lemma decode_scalar_bounded (n : nat) (b : pybytes) (s : pystr) :
  (length b <= n)%nat -> bytes_decode_utf8 b = Ok s -> forallb is_scalar s = true.
Proof.
  revert b s. induction n as [|n IH]; intros b s Hlen Hd.
  - destruct b; [|cbn in Hlen; lia]. injection Hd as <-. reflexivity.
  - destruct b as [|b0 r0]; [injection Hd as <-; reflexivity|].
    cbn [bytes_decode_utf8] in Hd. cbn zeta in Hd. cbn [length] in Hlen.
    repeat decode_step Hd.
    all: injection Hd as <-; cbn [forallb]; apply andb_true_intro; split.
    all: try (eapply IH; [|eassumption]; cbn [length] in Hlen; lia).
    all: clear IH Hlen; apply is_scalar_intro.
    + apply N.ltb_lt in Heqb. lia.
    + apply N.ltb_lt in Heqb. lia.
    + assert (N.lor (N.shiftl (N.land (to_N b0) 31) 6) (cont_bits (to_N b)) < 2 ^ 11)
        by bits_lt 11. lia.
    + assert (N.lor (N.shiftl (N.land (to_N b0) 31) 6) (cont_bits (to_N b)) < 2 ^ 11)
        by bits_lt 11. lia.
    + match goal with |- ?c < _ => assert (c < 2 ^ 16) by bits_lt 16 end. lia.
    + match goal with
      | Hs : _ || is_surrogate _ = false |- _ =>
          apply orb_false_elim in Hs; destruct Hs as [_ Hs];
          exact (is_surrogate_false _ Hs)
      end.
    + match goal with
      | Hs : _ || (_ <? _) = false |- _ =>
          apply orb_false_elim in Hs; destruct Hs as [_ Hs]; apply N.ltb_ge in Hs
      end. lia.
    + match goal with
      | Hs : (_ <? _) || _ = false |- _ =>
          apply orb_false_elim in Hs; destruct Hs as [Hs _]; apply N.ltb_ge in Hs
      end. lia.
Qed.

Lemma decode_scalar (b : pybytes) (s : pystr) :
  bytes_decode_utf8 b = Ok s -> forallb is_scalar s = true.
Proof. apply (decode_scalar_bounded (length b)). lia. Qed.

Lemma encode_char_scalar (c : N) :
  is_scalar c = true -> exists bs, utf8_encode_char c = Some bs.
Proof.
  unfold is_scalar, utf8_encode_char. intros Hc.
  apply andb_true_iff in Hc. destruct Hc as [Hlt Hs].
  apply negb_true_iff in Hs. rewrite Hlt, Hs.
  repeat match goal with |- context [if ?c then _ else _] => destruct c end; eauto.
Qed.

Lemma encode_scalar (s : pystr) :
  forallb is_scalar s = true -> exists bs, str_encode_utf8 s = Ok bs.
Proof.
  induction s as [|c s IH]; cbn [forallb str_encode_utf8]; intros Hs; [eauto|].
  apply andb_true_iff in Hs. destruct Hs as [Hc Hs].
  destruct (encode_char_scalar c Hc) as [bs ->].
  destruct (IH Hs) as [out ->]. eauto.
Qed.

Lemma join_scalar (sep : pystr) (parts : list pystr) :
  forallb is_scalar sep = true ->
  Forall (fun p => forallb is_scalar p = true) parts ->
  forallb is_scalar (str_join sep parts) = true.
Proof.
  intros Hsep Hparts. induction Hparts as [|p rest Hp Hrest IH]; [reflexivity|].
  cbn [str_join]. destruct rest as [|q rest]; [exact Hp|].
  rewrite !forallb_app, Hp, Hsep, IH. reflexivity.
Qed.

(** ** The signer *)

Section Signer.
Variable unicode_lower : pystr -> pystr.
Context {H : Type} `{HeaderMap H}.

(** Each step of the signer either raises, and then the request is as it
    was, or all succeed and the two headers are assigned. *)
Lemma call_outcome (self : Auth.t) (now : pystr) (request : Request H) :
  (exists e, Auth.__call__ unicode_lower self now request = (Raise e, request)) \/
  (exists key text msg,
      str_encode_utf8 (Auth.secret self) = Ok key /\
      bytes_decode_utf8 (body request) = Ok text /\
      str_encode_utf8
        (str_join NL [str_lower unicode_lower (Auth.serial self);
                      now ++ py " GMT"; text]) = Ok msg /\
      Auth.__call__ unicode_lower self now request =
        (Ok tt,
         mkRequest (method request) (url request)
           (header_set (py "Authorization")
              (py "NEATOAPP " ++ hexdigest (hmac_sha256 key msg))
              (header_set (py "Date") (now ++ py " GMT") (headers request)))
           (body request))).
Proof.
  unfold Auth.__call__, bind, lift, get, headers_setitem, modify.
  destruct (str_encode_utf8 (Auth.secret self)) as [key|e]; [|left; eauto].
  destruct (bytes_decode_utf8 (body request)) as [text|e]; [|left; eauto].
  destruct (str_encode_utf8 _) as [msg|e] eqn:Emsg; [|left; eauto].
  right. exists key, text, msg. cbn [method url headers body]. auto.
Qed.

(** X2: Signing cannot fail on valid inputs: when the secret, the lowered serial
    and the timestamp are made of scalar values and the body is UTF-8, the
    call returns. *)
Lemma signer_cannot_fail (self : Auth.t) (now : pystr) (request : Request H)
    (text : pystr) :
  forallb is_scalar (Auth.secret self) = true ->
  forallb is_scalar (str_lower unicode_lower (Auth.serial self)) = true ->
  forallb is_scalar now = true ->
  bytes_decode_utf8 (body request) = Ok text ->
  fst (Auth.__call__ unicode_lower self now request) = Ok tt.
Proof.
  intros Hsecret Hserial Hnow Htext.
  destruct (encode_scalar _ Hsecret) as [key Hkey].
  assert (Hjoin : forallb is_scalar
                    (str_join NL [str_lower unicode_lower (Auth.serial self);
                                  now ++ py " GMT"; text]) = true).
  { apply join_scalar; [reflexivity|].
    repeat constructor; [exact Hserial| |exact (decode_scalar _ _ Htext)].
    rewrite forallb_app, Hnow. reflexivity. }
  destruct (encode_scalar _ Hjoin) as [msg Hmsg].
  unfold Auth.__call__, bind, lift, get, headers_setitem, modify.
  rewrite Hkey, Htext, Hmsg. reflexivity.
Qed.

(** C1: for every serial, secret, timestamp and body, the signature is the
    hexadecimal HMAC-SHA256, keyed by the UTF-8 encoding of the secret, of
    the lowered serial, the timestamp and the UTF-8 decoded body joined
    by newlines; the [Date] header is set to the timestamp and the
    [Authorization] header to [NEATOAPP ] followed by the digest. *)
Theorem signer_sets_date_and_authorization
    (self : Auth.t) (now : pystr) (request : Request H)
    (key : pybytes) (text : pystr) (msg : pybytes) :
  let timestamp := now ++ py " GMT" in
  str_encode_utf8 (Auth.secret self) = Ok key ->
  bytes_decode_utf8 (body request) = Ok text ->
  str_encode_utf8
    (str_join NL [str_lower unicode_lower (Auth.serial self); timestamp; text])
    = Ok msg ->
  Auth.__call__ unicode_lower self now request =
    (Ok tt,
     mkRequest (method request) (url request)
       (header_set (py "Authorization")
          (py "NEATOAPP " ++ hexdigest (hmac_sha256 key msg))
          (header_set (py "Date") timestamp (headers request)))
       (body request)).
Proof.
  intros timestamp Hkey Htext Hmsg.
  destruct (call_outcome self now request) as [[e He]|(k & t & m & Hk & Ht & Hm & Hc)].
  - exfalso. revert He.
    unfold Auth.__call__, bind, lift, get, headers_setitem, modify.
    rewrite Hkey, Htext. fold timestamp. rewrite Hmsg. discriminate.
  - rewrite Hkey in Hk. rewrite Htext in Ht. injection Hk as <-. injection Ht as <-.
    fold timestamp in Hm. rewrite Hmsg in Hm. injection Hm as <-. exact Hc.
Qed.

Context `{!HeaderMapLaws H}.

(** C8: the signer changes the [Date] and [Authorization] headers and
    nothing else; every other header reads as before, and so do the body,
    the method and the URL. *)
Theorem signer_touches_two_headers_only
    (self : Auth.t) (now : pystr) (request : Request H) (k : pystr) :
  same_header (py "Date") k = false ->
  same_header (py "Authorization") k = false ->
  let request' := snd (Auth.__call__ unicode_lower self now request) in
  header_get (headers request') k = header_get (headers request) k /\
  body request' = body request /\
  method request' = method request /\
  url request' = url request.
Proof.
  intros Hdate Hauth.
  destruct (call_outcome self now request) as [[e He]|(k0 & t & m & _ & _ & _ & Hc)].
  - rewrite He. cbn [snd]. auto.
  - rewrite Hc. cbn [snd headers body method url].
    rewrite !header_get_set, Hauth, Hdate. auto.
Qed.

(** C9: the signature is a function of the serial, the secret, the
    timestamp and the body: two requests with the same body, whatever
    their headers, method and URL, are signed alike. *)
Theorem signature_deterministic
    (self : Auth.t) (now : pystr) (request1 request2 : Request H) :
  body request1 = body request2 ->
  let out1 := Auth.__call__ unicode_lower self now request1 in
  let out2 := Auth.__call__ unicode_lower self now request2 in
  fst out1 = fst out2 /\
  (fst out1 = Ok tt ->
   exists authorization,
     header_get (headers (snd out1)) (py "Authorization") = Some authorization /\
     header_get (headers (snd out2)) (py "Authorization") = Some authorization).
Proof.
  intros Hbody.
  destruct (call_outcome self now request1)
    as [[e1 He1]|(k1 & t1 & m1 & Hk1 & Ht1 & Hm1 & Hc1)];
  destruct (call_outcome self now request2)
    as [[e2 He2]|(k2 & t2 & m2 & Hk2 & Ht2 & Hm2 & Hc2)]; cbn zeta.
  - rewrite He1, He2. cbn [fst snd]. split.
    + revert He1 He2.
      unfold Auth.__call__, bind, lift, get, headers_setitem, modify.
      rewrite Hbody.
      destruct (str_encode_utf8 (Auth.secret self)); [|congruence].
      destruct (bytes_decode_utf8 (body request2)); [|congruence].
      destruct (str_encode_utf8 _); [discriminate|congruence].
    + discriminate.
  - exfalso. revert He1.
    unfold Auth.__call__, bind, lift, get, headers_setitem, modify.
    rewrite Hbody, Hk2, Ht2, Hm2. discriminate.
  - exfalso. revert He2.
    unfold Auth.__call__, bind, lift, get, headers_setitem, modify.
    rewrite <- Hbody, Hk1, Ht1, Hm1. discriminate.
  - rewrite Hc1, Hc2. cbn [fst snd headers]. split; [reflexivity|]. intros _.
    rewrite Hbody in Ht1. rewrite Hk2 in Hk1. rewrite Ht2 in Ht1.
    injection Hk1 as <-. injection Ht1 as <-.
    rewrite Hm2 in Hm1. injection Hm1 as <-.
    eexists. rewrite !header_get_set, !same_header_refl. split; reflexivity.
Qed.
End Signer.

(** ** The command client *)

Section Client.
Variable module_dir : pystr.
Variable requests_post : list PostCall -> PostCall -> result Response.

Local Abbreviation _message := (Robot._message module_dir requests_post).
Local Abbreviation start_cleaning := (Robot.start_cleaning module_dir requests_post).

(** [_message] calls [requests.post] once, with the payload it was given,
    the URL and headers of the robot and its credentials. *)
Lemma message_posts_once (self : Robot.t) (json : pyval) (calls : list PostCall) :
  exists c : PostCall,
    _message self json calls = (checked (requests_post calls c), calls ++ [c]) /\
    post_json c = json /\
    post_url c = Robot._url self /\
    post_headers c = Robot._headers self /\
    post_auth c = Auth.__init__ (Robot.serial self) (Robot.secret self).
Proof.
  exists (mkPost (Robot._url self) json
            (os_path_join (os_path_join module_dir (py "cert")) (py "neatocloud.com.crt"))
            (Auth.__init__ (Robot.serial self) (Robot.secret self))
            (Robot._headers self)).
  unfold Robot._message, Robot.post, bind, lift, ret, checked.
  split; [|cbn [post_json post_url post_headers post_auth]; auto].
  destruct (requests_post calls _) as [r|e]; [|reflexivity].
  destruct (raise_for_status r); reflexivity.
Qed.

(** Name the one call a pending [_message] makes. *)
Ltac post_once c Hc Hjson :=
  match goal with
  | |- context [Robot._message _ _ ?r ?json ?l] =>
      destruct (message_posts_once r json l) as (c & Hc & Hjson & _)
  end.

Lemma known_version_cases (v : pystr) :
  v ∈ known_versions <-> v = py "basic-1" \/ v = py "minimal-2" \/ v = py "basic-2".
Proof.
  unfold known_versions. rewrite !elem_of_cons, elem_of_nil. tauto.
Qed.

Lemma py_eq_str_spec (v lit : pystr) :
  py_eq_str (PStr v) lit = bool_decide (v = lit).
Proof. reflexivity. Qed.

(** The version read by a method, once the attribute and the key exist. *)
Lemma start_cleaning_unfold (self : Robot.t) (services : pyval) (sv : pyval)
    (mode navigationMode : option pyval) (calls : list PostCall) :
  Robot.availableServices self = Some services ->
  py_getitem services (py "houseCleaning") = Ok sv ->
  start_cleaning self mode navigationMode calls =
    let mode := default (PInt 2) mode in
    let navigationMode := default (PInt 2) navigationMode in
    if py_eq_str sv (py "basic-1") then
      _message self
        (PDict {[ py "reqId" := PStr (py "1");
                  py "cmd" := PStr (py "startCleaning");
                  py "params" := PDict {[ py "category" := PInt 2;
                                          py "mode" := mode;
                                          py "modifier" := PInt 1 ]} ]}) calls
    else if py_eq_str sv (py "minimal-2") then
      _message self
        (PDict {[ py "reqId" := PStr (py "1");
                  py "cmd" := PStr (py "startCleaning");
                  py "params" := PDict {[ py "category" := PInt 2;
                                          py "navigationMode" := navigationMode ]} ]}) calls
    else if py_eq_str sv (py "basic-2") then
      _message self
        (PDict {[ py "reqId" := PStr (py "1");
                  py "cmd" := PStr (py "startCleaning");
                  py "params" := PDict {[ py "category" := PInt 2;
                                          py "mode" := mode;
                                          py "modifier" := PInt 1;
                                          py "navigationMode" := navigationMode ]} ]}) calls
    else
      match py_str_add (py "Version ") sv with
      | Ok version =>
          (Raise (Exception (version ++ py " of service houseCleaning is not known")), calls)
      | Raise e => (Raise e, calls)
      end.
Proof.
  intros Hattr Hkey.
  unfold Robot.start_cleaning, Robot.getattr_availableServices, bind, lift, ret, raise.
  rewrite Hattr, Hkey. cbn zeta.
  destruct (py_eq_str sv (py "basic-1")); [reflexivity|].
  destruct (py_eq_str sv (py "minimal-2")); [reflexivity|].
  destruct (py_eq_str sv (py "basic-2")); [reflexivity|].
  destruct (py_str_add (py "Version ") sv); reflexivity.
Qed.

(** C2: the payload of [start_cleaning] by case on the version [v] of
    [houseCleaning]: for [basic-1] it is exactly [reqId], [cmd] and the
    params [category], [mode], [modifier], without [navigationMode]; for
    [minimal-2] the params are exactly [category] and [navigationMode],
    without [mode] and [modifier]; for [basic-2] they are exactly
    [category], [mode], [modifier] and [navigationMode]. *)
Theorem start_cleaning_payload_by_version
    (self : Robot.t) (services : pyval) (v : pystr)
    (mode navigationMode : pyval) (calls : list PostCall) :
  Robot.availableServices self = Some services ->
  py_getitem services (py "houseCleaning") = Ok (PStr v) ->
  let sends (params : gmap pystr pyval) (omitted : list pystr) :=
    (exists c : PostCall,
        snd (start_cleaning self (Some mode) (Some navigationMode) calls) = calls ++ [c] /\
        post_json c = PDict {[ py "reqId" := PStr (py "1");
                               py "cmd" := PStr (py "startCleaning");
                               py "params" := PDict params ]}) /\
    Forall (fun k => params !! k = None) omitted in
  (v = py "basic-1" ->
   sends {[ py "category" := PInt 2; py "mode" := mode; py "modifier" := PInt 1 ]}
         [py "navigationMode"]) /\
  (v = py "minimal-2" ->
   sends {[ py "category" := PInt 2; py "navigationMode" := navigationMode ]}
         [py "mode"; py "modifier"]) /\
  (v = py "basic-2" ->
   sends {[ py "category" := PInt 2; py "mode" := mode; py "modifier" := PInt 1;
            py "navigationMode" := navigationMode ]}
         []).
Proof.
  intros Hattr Hkey sends. subst sends. cbn beta.
  rewrite (start_cleaning_unfold _ _ _ _ _ _ Hattr Hkey). cbn zeta.
  rewrite !py_eq_str_spec.
  split; [|split]; intros ->; (split; [|repeat constructor]).
  all: repeat (first [rewrite bool_decide_eq_true_2 by reflexivity
                     | rewrite bool_decide_eq_false_2 by (vm_compute; discriminate)]).
  all: post_once c Hc Hjson; exists c; rewrite Hc; auto.
Qed.

Lemma py_in_strs_spec (v : pystr) (lits : list pystr) :
  py_in_strs (PStr v) lits = bool_decide (v ∈ lits).
Proof.
  unfold py_in_strs. induction lits as [|lit lits IH].
  - reflexivity.
  - cbn [existsb]. rewrite IH, py_eq_str_spec, <- bool_decide_or.
    apply bool_decide_ext. by rewrite elem_of_cons.
Qed.

Lemma unknown_version_message (v : pystr) :
  Exception ((py "Version " ++ v) ++ py " of service houseCleaning is not known")
  = UnsupportedServiceVersion v.
Proof. unfold UnsupportedServiceVersion. by rewrite <- app_assoc. Qed.

(** C3: for a version outside the three known ones, [start_cleaning]
    raises the exception that carries the version, and [requests.post]
    has not been called. *)
Theorem start_cleaning_unknown_version
    (self : Robot.t) (services : pyval) (v : pystr)
    (mode navigationMode : option pyval) (calls : list PostCall) :
  Robot.availableServices self = Some services ->
  py_getitem services (py "houseCleaning") = Ok (PStr v) ->
  v ∉ known_versions ->
  start_cleaning self mode navigationMode calls
  = (Raise (UnsupportedServiceVersion v), calls).
Proof.
  intros Hattr Hkey Hv.
  rewrite (start_cleaning_unfold _ _ _ _ _ _ Hattr Hkey). cbn zeta.
  rewrite known_version_cases in Hv.
  rewrite !py_eq_str_spec, !bool_decide_eq_false_2 by tauto.
  cbn [py_str_add]. by rewrite unknown_version_message.
Qed.

(** The body shared by the four commands that only check the version. *)
Ltac checked_command Hattr Hkey :=
  unfold Robot.pause_cleaning, Robot.resume_cleaning, Robot.stop_cleaning,
    Robot.send_to_base, Robot.getattr_availableServices, bind, lift, ret, raise;
  rewrite Hattr, Hkey, py_in_strs_spec.

(** C4: with a known version, [pause_cleaning], [resume_cleaning],
    [stop_cleaning] and [send_to_base] each send one message, whose [cmd] is
    [pauseCleaning], [resumeCleaning], [stopCleaning] and [sendToBase] in
    turn and which has no [params]; with any other version each raises the
    exception that carries the version and sends nothing. *)
Theorem checked_commands_by_version
    (self : Robot.t) (services : pyval) (v : pystr) (calls : list PostCall) :
  Robot.availableServices self = Some services ->
  py_getitem services (py "houseCleaning") = Ok (PStr v) ->
  let sends (method : Robot.t -> M (list PostCall) Response) (cmd : pystr) :=
    exists c : PostCall,
      snd (method self calls) = calls ++ [c] /\
      post_json c = PDict {[ py "reqId" := PStr (py "1"); py "cmd" := PStr cmd ]} /\
      py_getitem (post_json c) (py "params") = Raise (KeyError (py "params")) in
  let refuses (method : Robot.t -> M (list PostCall) Response) :=
    method self calls = (Raise (UnsupportedServiceVersion v), calls) in
  (v ∈ known_versions ->
   sends (Robot.pause_cleaning module_dir requests_post) (py "pauseCleaning") /\
   sends (Robot.resume_cleaning module_dir requests_post) (py "resumeCleaning") /\
   sends (Robot.stop_cleaning module_dir requests_post) (py "stopCleaning") /\
   sends (Robot.send_to_base module_dir requests_post) (py "sendToBase")) /\
  (v ∉ known_versions ->
   refuses (Robot.pause_cleaning module_dir requests_post) /\
   refuses (Robot.resume_cleaning module_dir requests_post) /\
   refuses (Robot.stop_cleaning module_dir requests_post) /\
   refuses (Robot.send_to_base module_dir requests_post)).
Proof.
  intros Hattr Hkey sends refuses. subst sends refuses. cbn beta.
  split; intros Hv.
  - repeat apply conj; checked_command Hattr Hkey;
      fold known_versions; rewrite bool_decide_eq_true_2 by exact Hv;
      cbn [negb]; post_once c Hc Hjson; exists c; rewrite Hc, Hjson;
      repeat apply conj; reflexivity.
  - repeat apply conj; checked_command Hattr Hkey;
      fold known_versions; rewrite bool_decide_eq_false_2 by exact Hv;
      cbn [negb py_str_add]; by rewrite unknown_version_message.
Qed.

(** C5, as the code has it: [get_robot_state] sends one message, with
    [cmd] [getRobotState], and returns the response object once its status
    has been checked; the parsed JSON of that response is what the property
    [state] returns. *)
Theorem get_robot_state_returns_response
    (self : Robot.t) (calls : list PostCall) :
  exists c : PostCall,
    post_json c = PDict {[ py "reqId" := PStr (py "1");
                           py "cmd" := PStr (py "getRobotState") ]} /\
    Robot.get_robot_state module_dir requests_post self calls
    = (checked (requests_post calls c), calls ++ [c]) /\
    Robot.state module_dir requests_post self calls
    = (match checked (requests_post calls c) with
       | Ok response => response_json response
       | Raise e => Raise e
       end, calls ++ [c]).
Proof.
  unfold Robot.state, Robot.get_robot_state, bind, lift.
  post_once c Hc Hjson. exists c. rewrite Hc.
  repeat apply conj; [exact Hjson|reflexivity|].
  destruct (checked _); reflexivity.
Qed.

(** C6: assigning [True] to [schedule_enabled] sends one message, the
    command [enableSchedule]; assigning [False] sends one message, the
    command [disableSchedule]. *)
Theorem schedule_setter_sends_one (self : Robot.t) (calls : list PostCall) :
  let sends (enable : bool) (cmd : pystr) :=
    exists c : PostCall,
      snd (Robot.set_schedule_enabled module_dir requests_post self (PBool enable) calls)
      = calls ++ [c] /\
      post_json c = PDict {[ py "reqId" := PStr (py "1"); py "cmd" := PStr cmd ]} in
  sends true (py "enableSchedule") /\ sends false (py "disableSchedule").
Proof.
  cbn zeta.
  split; unfold Robot.set_schedule_enabled, Robot.enable_schedule,
           Robot.disable_schedule, bind, ret; cbn [py_truthy];
    post_once c Hc Hjson; exists c; rewrite Hc;
    (split; [destruct (checked _); reflexivity | exact Hjson]).
Qed.

(** C10: without arguments, [start_cleaning] takes [mode = 2] and
    [navigationMode = 2]; for the version [basic-2] the params are
    [category] 2, [mode] 2, [modifier] 1 and [navigationMode] 2. *)
Theorem start_cleaning_defaults
    (self : Robot.t) (services : pyval) (calls : list PostCall) :
  Robot.availableServices self = Some services ->
  py_getitem services (py "houseCleaning") = Ok (PStr (py "basic-2")) ->
  exists c : PostCall,
    snd (start_cleaning self None None calls) = calls ++ [c] /\
    post_json c =
      PDict {[ py "reqId" := PStr (py "1");
               py "cmd" := PStr (py "startCleaning");
               py "params" := PDict {[ py "category" := PInt 2;
                                       py "mode" := PInt 2;
                                       py "modifier" := PInt 1;
                                       py "navigationMode" := PInt 2 ]} ]}.
Proof.
  intros Hattr Hkey.
  rewrite (start_cleaning_unfold _ _ _ _ _ _ Hattr Hkey). cbn zeta.
  rewrite !py_eq_str_spec.
  rewrite !(bool_decide_eq_false_2 (py "basic-2" = _)) by (vm_compute; discriminate).
  rewrite bool_decide_eq_true_2 by reflexivity.
  post_once c Hc Hjson. exists c. rewrite Hc. auto.
Qed.

(** Settle a goal on the calls a method adds: one call through
    [_message], or none when the method has raised before. *)
Ltac new_calls :=
  let c := fresh "c" in
  let Hc := fresh "Hc" in
  let Hjson := fresh "Hjson" in
  first
    [ post_once c Hc Hjson; exists [c]; rewrite Hc;
      split; [reflexivity|];
      repeat constructor; unfold has_reqId_1; rewrite Hjson; reflexivity
    | exists []; rewrite app_nil_r; split; [reflexivity | constructor] ].

(** C7: whatever the operation, every call it adds has a payload whose
    [reqId] is the string ["1"]. *)
Theorem every_payload_has_reqId_1
    (self : Robot.t) (op : Robot.operation) (calls : list PostCall) :
  exists new : list PostCall,
    snd (Robot.run module_dir requests_post self op calls) = calls ++ new /\
    Forall has_reqId_1 new.
Proof.
  destruct op; cbn [Robot.run];
    unfold Robot.start_cleaning, Robot.pause_cleaning, Robot.resume_cleaning,
      Robot.stop_cleaning, Robot.send_to_base, Robot.get_robot_state,
      Robot.enable_schedule, Robot.disable_schedule, Robot.get_schedule,
      Robot.getattr_availableServices, bind, lift, ret, raise;
    try new_calls.
  all: destruct (Robot.availableServices self) as [services|]; [|new_calls].
  all: destruct (py_getitem services _) as [sv|]; [|new_calls].
  - cbn zeta.
    destruct (py_eq_str sv (py "basic-1")); [new_calls|].
    destruct (py_eq_str sv (py "minimal-2")); [new_calls|].
    destruct (py_eq_str sv (py "basic-2")); [new_calls|].
    destruct (py_str_add _ sv); new_calls.
  - destruct (py_in_strs sv _); cbn [negb]; [new_calls|].
    destruct (py_str_add _ sv); new_calls.
  - destruct (py_in_strs sv _); cbn [negb]; [new_calls|].
    destruct (py_str_add _ sv); new_calls.
  - destruct (py_in_strs sv _); cbn [negb]; [new_calls|].
    destruct (py_str_add _ sv); new_calls.
  - destruct (py_in_strs sv _); cbn [negb]; [new_calls|].
    destruct (py_str_add _ sv); new_calls.
Qed.
End Client.

(** ** The theorems at sample data *)

Example robot_init_sample :
  Robot.__init__ sample_dir (sample_server (py "basic-2"))
    (py "OPS01234-0123456789AB") (py "sEcReT") (PList []) (Some (PStr (py "Rosie"))) []
  = (Ok (sample_robot (py "basic-2")),
     [mkPost (Robot._url (sample_robot (py "basic-2")))
        (PDict {[ py "reqId" := PStr (py "1"); py "cmd" := PStr (py "getRobotState") ]})
        (py "/usr/lib/python3/site-packages/pybotvac/cert/neatocloud.com.crt")
        sample_auth
        {[ py "Accept" := py "application/vnd.neato.nucleo.v1" ]}]).
Proof. vm_compute. reflexivity. Qed.

Example signer_sample_digest :
  let request' := snd (Auth.__call__ (fun s => s) sample_auth sample_now sample_request) in
  header_get (headers request') (py "Date") = Some (py "Wed, 04 Nov 2026 10:00:00 GMT") /\
  header_get (headers request') (py "Authorization")
  = Some (py "NEATOAPP 2b54e11805c60c9bf6e937a878d3109d21607709931547c12bdd8a12935d3274").
Proof. vm_compute. split; reflexivity. Qed.

(** With the mapping of [requests], an entry written as [date] is the one
    the signer assigns. *)
Example cidict_date_is_Date :
  let H := cidict_HeaderMap (fun s => s) in
  let request := mkRequest (py "POST") (py "u")
                   (header_set (py "date") (py "yesterday") ∅) [] in
  header_get (headers (snd (Auth.__call__ (fun s => s) sample_auth sample_now request)))
    (py "date")
  = Some (py "Wed, 04 Nov 2026 10:00:00 GMT").
Proof. vm_compute. reflexivity. Qed.

Lemma signer_sets_date_and_authorization_witness :
  exists (key : pybytes) (text : pystr) (msg : pybytes),
    str_encode_utf8 (Auth.secret sample_auth) = Ok key /\
    bytes_decode_utf8 (body sample_request) = Ok text /\
    str_encode_utf8
      (str_join NL [str_lower (fun s => s) (Auth.serial sample_auth);
                    sample_now ++ py " GMT"; text]) = Ok msg /\
    Auth.__call__ (fun s => s) sample_auth sample_now sample_request =
      (Ok tt,
       mkRequest (method sample_request) (url sample_request)
         (header_set (py "Authorization")
            (py "NEATOAPP " ++ hexdigest (hmac_sha256 key msg))
            (header_set (py "Date") (sample_now ++ py " GMT") (headers sample_request)))
         (body sample_request)).
Proof.
  eexists _, _, _.
  split; [vm_compute; reflexivity|].
  split; [vm_compute; reflexivity|].
  split; [vm_compute; reflexivity|].
  eapply (signer_sets_date_and_authorization (fun s => s) sample_auth sample_now
            sample_request); vm_compute; reflexivity.
Defined.

Lemma signer_touches_two_headers_only_witness :
  same_header (py "Date") (py "Accept") = false /\
  same_header (py "Authorization") (py "Accept") = false /\
  let request' := snd (Auth.__call__ (fun s => s) sample_auth sample_now sample_request) in
  header_get (headers request') (py "Accept") = header_get (headers sample_request) (py "Accept") /\
  body request' = body sample_request /\
  method request' = method sample_request /\
  url request' = url sample_request.
Proof.
  split; [vm_compute; reflexivity|].
  split; [vm_compute; reflexivity|].
  apply (signer_touches_two_headers_only (fun s => s) sample_auth sample_now
           sample_request (py "Accept")); vm_compute; reflexivity.
Defined.

Lemma signature_deterministic_witness :
  body sample_request = body bare_request /\
  let out1 := Auth.__call__ (fun s => s) sample_auth sample_now sample_request in
  let out2 := Auth.__call__ (fun s => s) sample_auth sample_now bare_request in
  fst out1 = fst out2 /\
  (fst out1 = Ok tt ->
   exists authorization,
     header_get (headers (snd out1)) (py "Authorization") = Some authorization /\
     header_get (headers (snd out2)) (py "Authorization") = Some authorization).
Proof.
  split; [reflexivity|].
  apply (signature_deterministic (fun s => s) sample_auth sample_now
           sample_request bare_request); reflexivity.
Defined.

Lemma start_cleaning_payload_by_version_witness :
  let self := sample_robot (py "minimal-2") in
  let services := PDict {[ py "houseCleaning" := PStr (py "minimal-2") ]} in
  Robot.availableServices self = Some services /\
  py_getitem services (py "houseCleaning") = Ok (PStr (py "minimal-2")) /\
  exists c : PostCall,
    snd (Robot.start_cleaning sample_dir (sample_server (py "minimal-2")) self
           (Some (PInt 1)) (Some (PInt 1)) []) = [] ++ [c] /\
    post_json c = PDict {[ py "reqId" := PStr (py "1");
                           py "cmd" := PStr (py "startCleaning");
                           py "params" := PDict {[ py "category" := PInt 2;
                                                   py "navigationMode" := PInt 1 ]} ]}.
Proof.
  cbn zeta.
  split; [reflexivity|]. split; [reflexivity|].
  apply (start_cleaning_payload_by_version sample_dir (sample_server (py "minimal-2"))
           (sample_robot (py "minimal-2")) _ (py "minimal-2") (PInt 1) (PInt 1) []
           eq_refl eq_refl).
  reflexivity.
Defined.

Lemma start_cleaning_unknown_version_witness :
  let self := sample_robot (py "weird-9") in
  let services := PDict {[ py "houseCleaning" := PStr (py "weird-9") ]} in
  Robot.availableServices self = Some services /\
  py_getitem services (py "houseCleaning") = Ok (PStr (py "weird-9")) /\
  (py "weird-9" ∉ known_versions) /\
  Robot.start_cleaning sample_dir (sample_server (py "weird-9")) self None None []
  = (Raise (Exception (py "Version weird-9 of service houseCleaning is not known")), []).
Proof.
  cbn zeta.
  assert (Hv : py "weird-9" ∉ known_versions).
  { intros Hin. apply known_version_cases in Hin.
    destruct Hin as [Hin|[Hin|Hin]]; vm_compute in Hin; discriminate. }
  split; [reflexivity|]. split; [reflexivity|]. split; [exact Hv|].
  exact (start_cleaning_unknown_version sample_dir (sample_server (py "weird-9"))
           (sample_robot (py "weird-9")) _ (py "weird-9") None None []
           eq_refl eq_refl Hv).
Defined.

Lemma checked_commands_by_version_witness :
  let self := sample_robot (py "basic-1") in
  let services := PDict {[ py "houseCleaning" := PStr (py "basic-1") ]} in
  Robot.availableServices self = Some services /\
  py_getitem services (py "houseCleaning") = Ok (PStr (py "basic-1")) /\
  (py "basic-1" ∈ known_versions) /\
  exists c : PostCall,
    snd (Robot.stop_cleaning sample_dir (sample_server (py "basic-1")) self []) = [] ++ [c] /\
    post_json c = PDict {[ py "reqId" := PStr (py "1"); py "cmd" := PStr (py "stopCleaning") ]} /\
    py_getitem (post_json c) (py "params") = Raise (KeyError (py "params")).
Proof.
  cbn zeta.
  assert (Hv : py "basic-1" ∈ known_versions) by (apply known_version_cases; auto).
  split; [reflexivity|]. split; [reflexivity|]. split; [exact Hv|].
  exact (proj1 (proj2 (proj2
           (proj1 (checked_commands_by_version sample_dir (sample_server (py "basic-1"))
                     (sample_robot (py "basic-1")) _ (py "basic-1") []
                     eq_refl eq_refl) Hv)))).
Defined.

Lemma start_cleaning_defaults_witness :
  let self := sample_robot (py "basic-2") in
  let services := PDict {[ py "houseCleaning" := PStr (py "basic-2") ]} in
  Robot.availableServices self = Some services /\
  py_getitem services (py "houseCleaning") = Ok (PStr (py "basic-2")) /\
  exists c : PostCall,
    snd (Robot.start_cleaning sample_dir (sample_server (py "basic-2")) self None None [])
    = [] ++ [c] /\
    post_json c =
      PDict {[ py "reqId" := PStr (py "1");
               py "cmd" := PStr (py "startCleaning");
               py "params" := PDict {[ py "category" := PInt 2;
                                       py "mode" := PInt 2;
                                       py "modifier" := PInt 1;
                                       py "navigationMode" := PInt 2 ]} ]}.
Proof.
  cbn zeta.
  split; [reflexivity|]. split; [reflexivity|].
  exact (start_cleaning_defaults sample_dir (sample_server (py "basic-2"))
           (sample_robot (py "basic-2")) _ [] eq_refl eq_refl).
Defined.

(** C5 as it is written fails: what [get_robot_state] returns is the
    response object.  With a server whose answer is no JSON document the call
    returns all the same, and it is the property [state] that raises; with a
    JSON answer the document comes out of [state], not of
    [get_robot_state]. *)
Lemma get_robot_state_is_not_parsed_json :
  let self := sample_robot (py "basic-1") in
  (exists response : Response,
      fst (Robot.get_robot_state sample_dir html_server self []) = Ok response /\
      response_json response = Raise ValueError /\
      fst (Robot.state sample_dir html_server self []) = Raise ValueError) /\
  fst (Robot.get_robot_state sample_dir (sample_server (py "basic-1")) self [])
  = Ok (mkResponse 200 (Ok (sample_state (py "basic-1")))) /\
  fst (Robot.state sample_dir (sample_server (py "basic-1")) self [])
  = Ok (sample_state (py "basic-1")).
Proof.
  cbn zeta. split; [eexists; repeat split|split]; reflexivity.
Qed.

(** * Further properties of the program *)

(** ** UTF-8: decoding followed by encoding gives the bytes back *)

Lemma byte_of_N_to_N (b : byte) : byte_of_N (to_N b) = b.
Proof.
  unfold byte_of_N. pose proof (to_N_bounded b).
  rewrite N.mod_small by lia. by rewrite of_to_N.
Qed.

Lemma in_all_bytes (b : byte) : In b all_bytes.
Proof.
  unfold all_bytes. rewrite <- (byte_of_N_to_N b). apply in_map.
  rewrite <- (N2Nat.id (to_N b)). apply in_map, in_seq.
  pose proof (to_N_bounded b). lia.
Qed.

Lemma guarded_elim (g f : byte -> bool) (b : byte) :
  guarded g f = true -> g b = true -> f b = true.
Proof.
  unfold guarded. intros Hall Hg.
  pose proof (proj1 (forallb_forall _ all_bytes) Hall b (in_all_bytes b)) as Hb.
  cbv beta in Hb. by rewrite Hg in Hb.
Qed.

(** Bits that do not overlap add up. *)
Lemma lor_shiftl_add (a b k : N) :
  b < 2 ^ k -> N.lor (N.shiftl a k) b = a * 2 ^ k + b.
Proof.
  intros Hb.
  assert (Hdisj : N.land (N.shiftl a k) b = 0).
  { apply N.bits_inj. intros i. rewrite N.land_spec, N.bits_0.
    destruct (N.lt_ge_cases i k) as [Hi|Hi].
    - by rewrite N.shiftl_spec_low.
    - rewrite <- (N.mod_small b (2 ^ k)) by exact Hb.
      rewrite N.mod_pow2_bits_high by exact Hi. apply andb_false_r. }
  rewrite <- N.lxor_lor by exact Hdisj.
  rewrite <- N.add_nocarry_lxor by exact Hdisj.
  by rewrite N.shiftl_mul_pow2.
Qed.

Lemma shiftr_split (hi lo k p : N) :
  2 ^ k = p -> lo < p -> N.shiftr (hi * p + lo) k = hi.
Proof.
  intros <- Hlo. rewrite N.shiftr_div_pow2. symmetry.
  apply (N.div_unique _ _ hi lo); lia.
Qed.

Lemma low6_split (hi lo : N) : lo < 64 -> N.land (hi * 64 + lo) 0x3F = lo.
Proof.
  intros Hlo. change 0x3F with (N.ones 6). rewrite N.land_ones. symmetry.
  apply (N.mod_unique _ _ hi lo); [exact Hlo|]. change (2 ^ 6) with 64. lia.
Qed.

Lemma cont_bits_lt64 (n : N) : cont_bits n < 64.
Proof. unfold cont_bits. pose proof (N.land_le_r n 0x3F). lia. Qed.

(** What the bits of two, three and four groups put together give back
    when they are taken apart. *)
Lemma parts2 (a x1 : N) :
  x1 < 64 ->
  let c := N.lor (N.shiftl a 6) x1 in
  c = a * 64 + x1 /\ N.shiftr c 6 = a /\ N.land c 0x3F = x1.
Proof.
  intros H1. cbn zeta. rewrite (lor_shiftl_add a x1 6) by exact H1.
  change (2 ^ 6) with 64. repeat split.
  - exact (shiftr_split a x1 6 64 eq_refl H1).
  - exact (low6_split a x1 H1).
Qed.

Lemma parts3 (a x1 x2 : N) :
  x1 < 64 -> x2 < 64 ->
  let c := N.lor (N.shiftl a 12) (N.lor (N.shiftl x1 6) x2) in
  c = (a * 64 + x1) * 64 + x2 /\
  N.shiftr c 12 = a /\ N.land (N.shiftr c 6) 0x3F = x1 /\ N.land c 0x3F = x2.
Proof.
  intros H1 H2. cbn zeta.
  rewrite (lor_shiftl_add x1 x2 6) by exact H2. change (2 ^ 6) with 64.
  rewrite (lor_shiftl_add a _ 12) by (change (2 ^ 12) with 4096; lia).
  change (2 ^ 12) with 4096.
  replace (a * 4096 + (x1 * 64 + x2)) with ((a * 64 + x1) * 64 + x2) by lia.
  repeat split.
  - replace ((a * 64 + x1) * 64 + x2) with (a * 4096 + (x1 * 64 + x2)) by lia.
    apply (shiftr_split a _ 12 4096 eq_refl). lia.
  - rewrite (shiftr_split (a * 64 + x1) x2 6 64 eq_refl H2).
    exact (low6_split a x1 H1).
  - exact (low6_split (a * 64 + x1) x2 H2).
Qed.

Lemma parts4 (a x1 x2 x3 : N) :
  x1 < 64 -> x2 < 64 -> x3 < 64 ->
  let c := N.lor (N.shiftl a 18)
             (N.lor (N.shiftl x1 12) (N.lor (N.shiftl x2 6) x3)) in
  c = ((a * 64 + x1) * 64 + x2) * 64 + x3 /\
  N.shiftr c 18 = a /\ N.land (N.shiftr c 12) 0x3F = x1 /\
  N.land (N.shiftr c 6) 0x3F = x2 /\ N.land c 0x3F = x3.
Proof.
  intros H1 H2 H3. cbn zeta.
  destruct (parts3 x1 x2 x3 H2 H3) as (-> & _).
  rewrite (lor_shiftl_add a _ 18) by (change (2 ^ 18) with 262144; lia).
  change (2 ^ 18) with 262144.
  replace (a * 262144 + ((x1 * 64 + x2) * 64 + x3))
    with (((a * 64 + x1) * 64 + x2) * 64 + x3) by lia.
  repeat split.
  - replace (((a * 64 + x1) * 64 + x2) * 64 + x3)
      with (a * 262144 + ((x1 * 64 + x2) * 64 + x3)) by lia.
    apply (shiftr_split a _ 18 262144 eq_refl). lia.
  - replace (((a * 64 + x1) * 64 + x2) * 64 + x3)
      with ((a * 64 + x1) * 4096 + (x2 * 64 + x3)) by lia.
    rewrite (shiftr_split _ _ 12 4096 eq_refl) by lia.
    exact (low6_split a x1 H1).
  - rewrite (shiftr_split ((a * 64 + x1) * 64 + x2) x3 6 64 eq_refl H3).
    exact (low6_split (a * 64 + x1) x2 H2).
  - exact (low6_split ((a * 64 + x1) * 64 + x2) x3 H3).
Qed.

(** Byte by byte: a continuation byte is [0x80] with its six bits, a lead
    byte is its mark with the bits it carries. *)
Lemma cont_byte_holds :
  guarded cont (fun b => N.lor 0x80 (cont_bits (to_N b)) =? to_N b) = true.
Proof. vm_compute. reflexivity. Qed.

Lemma lead2_byte_holds :
  guarded (lead 0xC0 0xE0)
    (fun b => (N.lor 0xC0 (N.land (to_N b) 0x1F) =? to_N b)
              && (N.land (to_N b) 0x1F <? 32)) = true.
Proof. vm_compute. reflexivity. Qed.

Lemma lead3_byte_holds :
  guarded (lead 0xE0 0xF0)
    (fun b => (N.lor 0xE0 (N.land (to_N b) 0x0F) =? to_N b)
              && (N.land (to_N b) 0x0F <? 16)) = true.
Proof. vm_compute. reflexivity. Qed.

Lemma lead4_byte_holds :
  guarded (lead 0xF0 0xF8)
    (fun b => (N.lor 0xF0 (N.land (to_N b) 0x07) =? to_N b)
              && (N.land (to_N b) 0x07 <? 8)) = true.
Proof. vm_compute. reflexivity. Qed.

Lemma lead_intro (lo hi : N) (b : byte) :
  (to_N b <? lo) = false -> (to_N b <? hi) = true -> lead lo hi b = true.
Proof. unfold lead. by intros -> ->. Qed.

Lemma cont_byte (b : byte) :
  negb (is_cont (to_N b)) = false ->
  byte_of_N (N.lor 0x80 (cont_bits (to_N b))) = b.
Proof.
  intros Hb. apply negb_false_iff in Hb.
  pose proof (guarded_elim _ _ b cont_byte_holds Hb) as Hc. cbv beta in Hc.
  apply N.eqb_eq in Hc. rewrite Hc. apply byte_of_N_to_N.
Qed.

Lemma lead_byte (lo hi mark mask bound : N) (b : byte) :
  guarded (lead lo hi)
    (fun b => (N.lor mark (N.land (to_N b) mask) =? to_N b)
              && (N.land (to_N b) mask <? bound)) = true ->
  (to_N b <? lo) = false -> (to_N b <? hi) = true ->
  byte_of_N (N.lor mark (N.land (to_N b) mask)) = b /\ N.land (to_N b) mask < bound.
Proof.
  intros Hall Hlo Hhi.
  pose proof (guarded_elim _ _ b Hall (lead_intro _ _ _ Hlo Hhi)) as Hc.
  cbv beta in Hc. apply andb_true_iff in Hc. destruct Hc as [Heq Hlt].
  apply N.eqb_eq in Heq. apply N.ltb_lt in Hlt. rewrite Heq.
  split; [apply byte_of_N_to_N | exact Hlt].
Qed.

Lemma encode_code2 (b0 b1 : byte) :
  (to_N b0 <? 0xC0) = false -> (to_N b0 <? 0xE0) = true ->
  negb (is_cont (to_N b1)) = false ->
  (code2 b0 b1 <? 0x80) = false ->
  utf8_encode_char (code2 b0 b1) = Some [b0; b1].
Proof.
  intros Hlo Hhi H1 Hc. unfold code2 in *.
  destruct (lead_byte _ _ _ _ _ b0 lead2_byte_holds Hlo Hhi) as [Hb0 Ha].
  pose proof (cont_bits_lt64 (to_N b1)) as Hx1.
  destruct (parts2 (N.land (to_N b0) 0x1F) _ Hx1) as (Hval & Hs6 & Hl).
  unfold utf8_encode_char. rewrite Hc.
  replace (_ <? 0x800) with true by (symmetry; apply N.ltb_lt; lia).
  by rewrite Hs6, Hl, Hb0, cont_byte.
Qed.

Lemma encode_code3 (b0 b1 b2 : byte) :
  (to_N b0 <? 0xE0) = false -> (to_N b0 <? 0xF0) = true ->
  negb (is_cont (to_N b1)) = false -> negb (is_cont (to_N b2)) = false ->
  (code3 b0 b1 b2 <? 0x800) || is_surrogate (code3 b0 b1 b2) = false ->
  utf8_encode_char (code3 b0 b1 b2) = Some [b0; b1; b2].
Proof.
  intros Hlo Hhi H1 H2 Hc. unfold code3 in *.
  destruct (lead_byte _ _ _ _ _ b0 lead3_byte_holds Hlo Hhi) as [Hb0 Ha].
  pose proof (cont_bits_lt64 (to_N b1)) as Hx1.
  pose proof (cont_bits_lt64 (to_N b2)) as Hx2.
  destruct (parts3 (N.land (to_N b0) 0x0F) _ _ Hx1 Hx2) as (Hval & Hs12 & Hs6 & Hl).
  apply orb_false_elim in Hc. destruct Hc as [Hmin Hsur].
  unfold utf8_encode_char. rewrite Hmin, Hsur.
  replace (_ <? 0x80) with false
    by (symmetry; apply N.ltb_ge; apply N.ltb_ge in Hmin; lia).
  replace (_ <? 0x10000) with true by (symmetry; apply N.ltb_lt; lia).
  by rewrite Hs12, Hs6, Hl, Hb0, !cont_byte.
Qed.

Lemma encode_code4 (b0 b1 b2 b3 : byte) :
  (to_N b0 <? 0xF0) = false -> (to_N b0 <? 0xF8) = true ->
  negb (is_cont (to_N b1)) = false -> negb (is_cont (to_N b2)) = false ->
  negb (is_cont (to_N b3)) = false ->
  (code4 b0 b1 b2 b3 <? 0x10000) || (0x10FFFF <? code4 b0 b1 b2 b3) = false ->
  utf8_encode_char (code4 b0 b1 b2 b3) = Some [b0; b1; b2; b3].
Proof.
  intros Hlo Hhi H1 H2 H3 Hc. unfold code4 in *.
  destruct (lead_byte _ _ _ _ _ b0 lead4_byte_holds Hlo Hhi) as [Hb0 Ha].
  pose proof (cont_bits_lt64 (to_N b1)) as Hx1.
  pose proof (cont_bits_lt64 (to_N b2)) as Hx2.
  pose proof (cont_bits_lt64 (to_N b3)) as Hx3.
  destruct (parts4 (N.land (to_N b0) 0x07) _ _ _ Hx1 Hx2 Hx3)
    as (Hval & Hs18 & Hs12 & Hs6 & Hl).
  apply orb_false_elim in Hc. destruct Hc as [Hmin Hmax].
  unfold utf8_encode_char. rewrite Hmin.
  replace (_ <? 0x80) with false
    by (symmetry; apply N.ltb_ge; apply N.ltb_ge in Hmin; lia).
  replace (_ <? 0x800) with false
    by (symmetry; apply N.ltb_ge; apply N.ltb_ge in Hmin; lia).
  replace (_ <? 0x110000) with true
    by (symmetry; apply N.ltb_lt; apply N.ltb_ge in Hmax; lia).
  by rewrite Hs18, Hs12, Hs6, Hl, Hb0, !cont_byte.
Qed.

Lemma decode_encode_bounded (n : nat) (b : pybytes) (s : pystr) :
  (length b <= n)%nat -> bytes_decode_utf8 b = Ok s -> str_encode_utf8 s = Ok b.
Proof.
  revert b s. induction n as [|n IH]; intros b s Hlen Hd.
  - destruct b; [|cbn in Hlen; lia]. injection Hd as <-. reflexivity.
  - destruct b as [|b0 r0]; [injection Hd as <-; reflexivity|].
    cbn [bytes_decode_utf8] in Hd. cbn zeta in Hd. cbn [length] in Hlen.
    repeat decode_step Hd.
    all: injection Hd as <-; cbn [str_encode_utf8].
    all: match goal with
         | Hr : bytes_decode_utf8 ?r = Ok ?a |- _ =>
             rewrite (IH r a) by (first [exact Hr | cbn [length] in Hlen; lia])
         end.
    + unfold utf8_encode_char.
      match goal with Hlt : (_ <? 128) = true |- _ => rewrite Hlt end.
      by rewrite byte_of_N_to_N.
    + fold (code2 b0 b). by rewrite encode_code2.
    + fold (code3 b0 b b1). by rewrite encode_code3.
    + fold (code4 b0 b b1 b2). by rewrite encode_code4.
Qed.

Lemma decode_encode (b : pybytes) (s : pystr) :
  bytes_decode_utf8 b = Ok s -> str_encode_utf8 s = Ok b.
Proof. apply (decode_encode_bounded (length b)). lia. Qed.




Lemma encode_app (s1 s2 : pystr) (b1 b2 : pybytes) :
  str_encode_utf8 s1 = Ok b1 -> str_encode_utf8 s2 = Ok b2 ->
  str_encode_utf8 (s1 ++ s2) = Ok (b1 ++ b2).
Proof.
  revert b1. induction s1 as [|c s1 IH]; intros b1 H1 H2.
  - injection H1 as <-. exact H2.
  - cbn [str_encode_utf8 app] in *.
    destruct (utf8_encode_char c) as [bs|]; [|discriminate].
    destruct (str_encode_utf8 s1) as [out|]; [|discriminate].
    injection H1 as <-. rewrite (IH out eq_refl H2). by rewrite app_assoc.
Qed.

(** ** The digest has 32 bytes, its hexadecimal form 64 digits *)

Lemma sha256_round_length (k w : N) (s : list N) :
  length s = 8%nat -> length (sha256_round k w s) = 8%nat.
Proof.
  intros Hs. do 9 (destruct s as [|? s]; try discriminate Hs). reflexivity.
Qed.

Lemma sha256_rounds_length (ks w s : list N) :
  length s = 8%nat -> length (sha256_rounds ks w s) = 8%nat.
Proof.
  revert w s. induction ks as [|k ks IH]; intros w s Hs; [exact Hs|].
  cbn [sha256_rounds]. apply IH. by apply sha256_round_length.
Qed.

Lemma sha256_block_length (s : list N) (block : pybytes) :
  length s = 8%nat -> length (sha256_block s block) = 8%nat.
Proof.
  intros Hs. unfold sha256_block.
  rewrite length_zip_with, sha256_rounds_length, Hs by exact Hs. reflexivity.
Qed.

Lemma sha256_length (msg : pybytes) : length (sha256 msg) = 32%nat.
Proof.
  unfold sha256.
  assert (Hstate : forall blocks s, length s = 8%nat ->
            length (fold_left sha256_block blocks s) = 8%nat).
  { induction blocks as [|blk blocks IH]; intros s Hs; [exact Hs|].
    cbn [fold_left]. apply IH. by apply sha256_block_length. }
  specialize (Hstate (chunks 64 (length (sha256_pad msg)) (sha256_pad msg))
                sha256_H0 eq_refl).
  destruct (fold_left _ _ _) as [|a [|b [|c [|d [|e [|f [|g [|h [|? ?]]]]]]]]];
    try discriminate Hstate.
  reflexivity.
Qed.

Lemma hmac_sha256_length (key msg : pybytes) : length (hmac_sha256 key msg) = 32%nat.
Proof. unfold hmac_sha256. apply sha256_length. Qed.

Lemma hex_digit_is_hex (n : N) : n < 16 -> is_hex_digit (hex_digit n) = true.
Proof.
  intros Hn. unfold hex_digit, is_hex_digit.
  destruct (N.ltb_spec n 10).
  - replace (48 <=? 48 + n) with true by (symmetry; apply N.leb_le; lia).
    replace (48 + n <=? 57) with true by (symmetry; apply N.leb_le; lia).
    reflexivity.
  - replace (97 <=? 87 + n) with true by (symmetry; apply N.leb_le; lia).
    replace (87 + n <=? 102) with true by (symmetry; apply N.leb_le; lia).
    apply orb_true_r.
Qed.

Lemma hexdigest_shape (bs : pybytes) :
  length (hexdigest bs) = (2 * length bs)%nat /\
  forallb is_hex_digit (hexdigest bs) = true.
Proof.
  unfold hexdigest. induction bs as [|b bs [IHlen IHhex]]; [split; reflexivity|].
  cbn [List.map concat app length forallb]. rewrite IHlen, IHhex.
  pose proof (to_N_bounded b) as Hb.
  rewrite !hex_digit_is_hex.
  - split; [lia|reflexivity].
  - apply N.mod_lt. discriminate.
  - apply N.Div0.div_lt_upper_bound. lia.
Qed.

(** ** More on the signer *)

Section SignerMore.
Variable unicode_lower : pystr -> pystr.
Context {H : Type} `{HeaderMap H}.



(** X3: The bytes that are signed are the encoded lowered serial, a newline, the
    encoded timestamp, a newline and the body as it is. *)
Theorem signer_signs_body_verbatim
    (self : Auth.t) (now : pystr) (request : Request H)
    (key serial_bytes now_bytes : pybytes) (text : pystr) :
  str_encode_utf8 (Auth.secret self) = Ok key ->
  str_encode_utf8 (str_lower unicode_lower (Auth.serial self)) = Ok serial_bytes ->
  str_encode_utf8 now = Ok now_bytes ->
  bytes_decode_utf8 (body request) = Ok text ->
  Auth.__call__ unicode_lower self now request =
    (Ok tt,
     mkRequest (method request) (url request)
       (header_set (py "Authorization")
          (py "NEATOAPP " ++
           hexdigest (hmac_sha256 key
                        (serial_bytes ++ [byte_of_N 10] ++ now_bytes
                           ++ ascii_bytes " GMT" ++ [byte_of_N 10] ++ body request)))
          (header_set (py "Date") (now ++ py " GMT") (headers request)))
       (body request)).
Proof.
  intros Hkey Hserial Hnow Htext.
  assert (Hmsg : str_encode_utf8
                   (str_join NL [str_lower unicode_lower (Auth.serial self);
                                 now ++ py " GMT"; text])
                 = Ok (serial_bytes ++ [byte_of_N 10] ++ now_bytes
                         ++ ascii_bytes " GMT" ++ [byte_of_N 10] ++ body request)).
  { cbn [str_join].
    apply encode_app; [exact Hserial|].
    apply (encode_app NL _ [byte_of_N 10]); [reflexivity|].
    rewrite <- app_assoc.
    apply encode_app; [exact Hnow|].
    apply (encode_app (py " GMT") _ (ascii_bytes " GMT")); [reflexivity|].
    apply (encode_app NL _ [byte_of_N 10]); [reflexivity|].
    exact (decode_encode _ _ Htext). }
  unfold Auth.__call__, bind, lift, get, headers_setitem, modify.
  rewrite Hkey, Htext, Hmsg. reflexivity.
Qed.

Lemma ascii_lower_idem (c : N) : ascii_lower (ascii_lower c) = ascii_lower c.
Proof.
  unfold ascii_lower.
  destruct (N.leb_spec 65 c), (N.leb_spec c 90); cbn [andb]; try reflexivity.
  - destruct (N.leb_spec 65 (c + 32)), (N.leb_spec (c + 32) 90); cbn [andb];
      try reflexivity; lia.
  - destruct (N.leb_spec 65 c), (N.leb_spec c 90); cbn [andb]; try reflexivity; lia.
  - destruct (N.leb_spec 65 c), (N.leb_spec c 90); cbn [andb]; try reflexivity; lia.
  - destruct (N.leb_spec 65 c), (N.leb_spec c 90); cbn [andb]; try reflexivity; lia.
Qed.

Lemma str_lower_ascii_idem (s : pystr) :
  is_ascii s = true ->
  str_lower unicode_lower (str_lower unicode_lower s) = str_lower unicode_lower s.
Proof.
  intros Hs. unfold str_lower at 2 3. rewrite Hs.
  assert (Hl : is_ascii (List.map ascii_lower s) = true).
  { unfold is_ascii in *. rewrite forallb_forall in *.
    intros c Hc. apply in_map_iff in Hc. destruct Hc as (c0 & <- & Hc0).
    specialize (Hs c0 Hc0). apply N.ltb_lt in Hs. apply N.ltb_lt.
    unfold ascii_lower. destruct (_ && _) eqn:Hr; [|exact Hs].
    apply andb_true_iff in Hr. destruct Hr as [_ Hr]. apply N.leb_le in Hr. lia. }
  unfold str_lower. rewrite Hl, List.map_map.
  apply List.map_ext. intros c. apply ascii_lower_idem.
Qed.

(** X4: The case of an ASCII serial does not matter: signing with the serial
    and signing with its lowered form give the same outcome. *)
Theorem signer_serial_case_insensitive
    (serial secret now : pystr) (request : Request H) :
  is_ascii serial = true ->
  Auth.__call__ unicode_lower (Auth.__init__ serial secret) now request =
  Auth.__call__ unicode_lower
    (Auth.__init__ (str_lower unicode_lower serial) secret) now request.
Proof.
  intros Hs. unfold Auth.__call__, Auth.__init__. cbn [Auth.serial Auth.secret].
  by rewrite str_lower_ascii_idem.
Qed.

Context `{!HeaderMapLaws H}.

(** X5: After a successful signing the [Authorization] header reads as
    [NEATOAPP ] followed by 64 lowercase hexadecimal digits. *)
Theorem authorization_is_64_hex_digits
    (self : Auth.t) (now : pystr) (request : Request H) :
  fst (Auth.__call__ unicode_lower self now request) = Ok tt ->
  exists digest : pystr,
    header_get (headers (snd (Auth.__call__ unicode_lower self now request)))
      (py "Authorization") = Some (py "NEATOAPP " ++ digest) /\
    length digest = 64%nat /\
    forallb is_hex_digit digest = true.
Proof.
  intros Hok.
  destruct (call_outcome unicode_lower self now request)
    as [[e He]|(k & t & m & _ & _ & _ & Hc)].
  - rewrite He in Hok. discriminate.
  - rewrite Hc. cbn [snd headers]. eexists.
    rewrite header_get_set, same_header_refl. split; [reflexivity|].
    destruct (hexdigest_shape (hmac_sha256 k m)) as [Hlen Hhex].
    rewrite Hlen, hmac_sha256_length. auto.
Qed.

(** Two requests with the same body fare alike. *)
Lemma call_same_body (self : Auth.t) (now : pystr) (r1 r2 : Request H) :
  body r1 = body r2 ->
  (exists e, Auth.__call__ unicode_lower self now r1 = (Raise e, r1) /\
             Auth.__call__ unicode_lower self now r2 = (Raise e, r2)) \/
  (exists authorization,
      Auth.__call__ unicode_lower self now r1 =
        (Ok tt, mkRequest (method r1) (url r1)
                  (header_set (py "Authorization") authorization
                     (header_set (py "Date") (now ++ py " GMT") (headers r1)))
                  (body r1)) /\
      Auth.__call__ unicode_lower self now r2 =
        (Ok tt, mkRequest (method r2) (url r2)
                  (header_set (py "Authorization") authorization
                     (header_set (py "Date") (now ++ py " GMT") (headers r2)))
                  (body r2))).
Proof.
  destruct r1 as [m1 u1 h1 b1], r2 as [m2 u2 h2 b2]. cbn [body]. intros ->.
  unfold Auth.__call__, bind, lift, get, headers_setitem, modify.
  cbn [method url headers body].
  destruct (str_encode_utf8 (Auth.secret self)) as [key|e]; [|left; eauto].
  destruct (bytes_decode_utf8 b2) as [text|e]; [|left; eauto].
  destruct (str_encode_utf8 (str_join _ _)) as [msg|e]; [|left; eauto].
  right. eauto.
Qed.

Lemma call_keeps_body (self : Auth.t) (now : pystr) (request : Request H) :
  body (snd (Auth.__call__ unicode_lower self now request)) = body request.
Proof.
  destruct (call_outcome unicode_lower self now request)
    as [[e He]|(k & t & m & _ & _ & _ & Hc)].
  - by rewrite He.
  - by rewrite Hc.
Qed.

(** X6: Signing a request that has been signed before replaces the two headers:
    when the later signing succeeds, every header reads as if the request had
    been signed once, at the later time. *)
Theorem resigning_replaces_headers
    (self : Auth.t) (now1 now2 : pystr) (request : Request H) (k : pystr) :
  let once := Auth.__call__ unicode_lower self now2 request in
  let twice := Auth.__call__ unicode_lower self now2
                 (snd (Auth.__call__ unicode_lower self now1 request)) in
  fst once = Ok tt ->
  fst twice = Ok tt /\
  header_get (headers (snd twice)) k = header_get (headers (snd once)) k /\
  body (snd twice) = body (snd once).
Proof.
  cbn zeta.
  destruct (call_same_body self now2 _ request (call_keeps_body self now1 request))
    as [(e & -> & ->)|(a & -> & ->)]; cbn [fst snd headers body]; [discriminate|].
  intros _. rewrite call_keeps_body. repeat split.
  destruct (call_outcome unicode_lower self now1 request)
    as [[e1 ->]|(k1 & t1 & m1 & _ & _ & _ & ->)]; cbn [snd headers]; [reflexivity|].
  rewrite !header_get_set.
  destruct (same_header (py "Authorization") k), (same_header (py "Date") k); auto.
Qed.
End SignerMore.

(** ** More on the command client *)

Section ClientMore.
Variable module_dir : pystr.
Variable requests_post : list PostCall -> PostCall -> result Response.

Local Abbreviation run := (Robot.run module_dir requests_post).
Local Abbreviation call_of := (message_call module_dir).

Lemma message_is_call (self : Robot.t) (json : pyval) (calls : list PostCall) :
  Robot._message module_dir requests_post self json calls
  = (checked (requests_post calls (call_of self json)), calls ++ [call_of self json]).
Proof.
  unfold Robot._message, Robot.post, bind, lift, ret, checked, message_call.
  destruct (requests_post calls _) as [r|e]; [|reflexivity].
  destruct (raise_for_status r); reflexivity.
Qed.

Local Abbreviation after_version := (after_version_of module_dir requests_post).

Lemma run_unfold (self : Robot.t) (op : Robot.operation) (calls : list PostCall) :
  run self op calls =
    if needs_version op then
      match Robot.availableServices self with
      | None => (Raise (AttributeError (py "availableServices")), calls)
      | Some services =>
          match py_getitem services (py "houseCleaning") with
          | Raise e => (Raise e, calls)
          | Ok sv => after_version self op sv calls
          end
      end
    else Robot._message module_dir requests_post self (command (command_name op)) calls.
Proof.
  destruct op; cbn [Robot.run needs_version]; try reflexivity.
  all: unfold Robot.start_cleaning, Robot.pause_cleaning, Robot.resume_cleaning,
         Robot.stop_cleaning, Robot.send_to_base, Robot.getattr_availableServices,
         bind, lift, ret, raise, after_version_of.
  all: destruct (Robot.availableServices self) as [services|]; [|reflexivity].
  all: destruct (py_getitem services _) as [sv|]; [|reflexivity].
  - cbn zeta.
    destruct (py_eq_str sv (py "basic-1")); [reflexivity|].
    destruct (py_eq_str sv (py "minimal-2")); [reflexivity|].
    destruct (py_eq_str sv (py "basic-2")); [reflexivity|].
    destruct (py_str_add _ sv); reflexivity.
  - fold known_versions. destruct (py_in_strs sv known_versions); cbn [negb];
      [reflexivity|]. destruct (py_str_add _ sv); reflexivity.
  - fold known_versions. destruct (py_in_strs sv known_versions); cbn [negb];
      [reflexivity|]. destruct (py_str_add _ sv); reflexivity.
  - fold known_versions. destruct (py_in_strs sv known_versions); cbn [negb];
      [reflexivity|]. destruct (py_str_add _ sv); reflexivity.
  - fold known_versions. destruct (py_in_strs sv known_versions); cbn [negb];
      [reflexivity|]. destruct (py_str_add _ sv); reflexivity.
Qed.

(** An operation either stops before sending, with the calls as they were,
    or it sends one call for some payload and its result is the checked
    answer. *)
Lemma run_outcome (self : Robot.t) (op : Robot.operation) (calls : list PostCall) :
  (exists e, run self op calls = (Raise e, calls)) \/
  (exists json, run self op calls
                = (checked (requests_post calls (call_of self json)),
                   calls ++ [call_of self json])).
Proof.
  rewrite run_unfold. destruct (needs_version op).
  - destruct (Robot.availableServices self) as [services|]; [|left; eauto].
    destruct (py_getitem services _) as [sv|]; [|left; eauto].
    unfold after_version_of.
    destruct op; cbn zeta;
      repeat match goal with
             | |- context [if ?c then _ else _] => destruct c
             end;
      try (right; eexists; apply message_is_call);
      destruct (py_str_add _ sv); left; eauto.
  - right. eexists. apply message_is_call.
Qed.

Lemma sent_call (self : Robot.t) (op : Robot.operation) (calls : list PostCall)
    (c : PostCall) :
  snd (run self op calls) = calls ++ [c] ->
  run self op calls = (checked (requests_post calls c), calls ++ [c]) /\
  exists json, c = call_of self json.
Proof.
  intros Hsent.
  destruct (run_outcome self op calls) as [[e He]|[json Hj]].
  - rewrite He in Hsent. cbn [snd] in Hsent.
    rewrite <- (app_nil_r calls) in Hsent at 1.
    apply app_inv_head in Hsent. discriminate.
  - rewrite Hj in Hsent. cbn [snd] in Hsent.
    apply app_inv_head in Hsent. injection Hsent as <-. eauto.
Qed.

(** X7: An operation that has sent its call and is answered with a status from
    400 to 599 raises the HTTP error with that status. *)
Theorem operation_reports_http_error
    (self : Robot.t) (op : Robot.operation) (calls : list PostCall)
    (c : PostCall) (r : Response) :
  snd (run self op calls) = calls ++ [c] ->
  requests_post calls c = Ok r ->
  (400 <= status_code r < 600)%Z ->
  fst (run self op calls) = Raise (HTTPError (status_code r)).
Proof.
  intros Hsent Hanswer Hstatus.
  destruct (sent_call self op calls c Hsent) as [-> _]. cbn [fst].
  rewrite Hanswer. unfold checked, raise_for_status.
  replace (400 <=? status_code r)%Z with true by (symmetry; apply Z.leb_le; lia).
  replace (status_code r <? 600)%Z with true by (symmetry; apply Z.ltb_lt; lia).
  reflexivity.
Qed.

(** X8: An exception of the transport comes out of the operation as it is, and
    the operation has made its one call: nothing is tried again. *)
Theorem operation_reports_transport_error
    (self : Robot.t) (op : Robot.operation) (calls : list PostCall)
    (c : PostCall) (e : PyExc) :
  snd (run self op calls) = calls ++ [c] ->
  requests_post calls c = Raise e ->
  run self op calls = (Raise e, calls ++ [c]).
Proof.
  intros Hsent Hanswer.
  destruct (sent_call self op calls c Hsent) as [-> _].
  by rewrite Hanswer.
Qed.

(** X9: Any other status, a redirect such as 304 included, is no error: the
    operation returns the response object it was answered with. *)
Theorem operation_returns_other_statuses
    (self : Robot.t) (op : Robot.operation) (calls : list PostCall)
    (c : PostCall) (r : Response) :
  snd (run self op calls) = calls ++ [c] ->
  requests_post calls c = Ok r ->
  (status_code r < 400 \/ 600 <= status_code r)%Z ->
  fst (run self op calls) = Ok r.
Proof.
  intros Hsent Hanswer Hstatus.
  destruct (sent_call self op calls c Hsent) as [-> _]. cbn [fst].
  rewrite Hanswer. unfold checked, raise_for_status.
  destruct Hstatus as [Hlow|Hhigh].
  - replace (400 <=? status_code r)%Z with false by (symmetry; apply Z.leb_gt; lia).
    reflexivity.
  - replace (status_code r <? 600)%Z with false by (symmetry; apply Z.ltb_ge; lia).
    by rewrite andb_false_r.
Qed.

(** X10: An operation makes at most one call, after the calls made before, and
    that call goes to the URL of the robot with its credentials, its headers
    and the certificate of the module. *)
Theorem operation_calls_robot_endpoint
    (self : Robot.t) (op : Robot.operation) (calls : list PostCall) :
  exists new : list PostCall,
    snd (run self op calls) = calls ++ new /\
    (length new <= 1)%nat /\
    Forall (fun c =>
              post_url c = Robot._url self /\
              post_auth c = Auth.__init__ (Robot.serial self) (Robot.secret self) /\
              post_headers c = Robot._headers self /\
              post_verify c = os_path_join (os_path_join module_dir (py "cert"))
                                (py "neatocloud.com.crt")) new.
Proof.
  destruct (run_outcome self op calls) as [[e ->]|[json ->]]; cbn [snd].
  - exists []. rewrite app_nil_r. repeat split; [cbn; lia|constructor].
  - exists [call_of self json]. repeat split; [cbn; lia|].
    repeat constructor.
Qed.

(** X11: The call of an operation carries the command of that operation, and
    only [start_cleaning] sends [params]. *)
Theorem payload_names_operation
    (self : Robot.t) (op : Robot.operation) (calls : list PostCall) (c : PostCall) :
  snd (run self op calls) = calls ++ [c] ->
  py_getitem (post_json c) (py "cmd") = Ok (PStr (command_name op)) /\
  (match op with
   | Robot.StartCleaning _ _ => True
   | _ => py_getitem (post_json c) (py "params") = Raise (KeyError (py "params"))
   end).
Proof.
  rewrite run_unfold. destruct (needs_version op) eqn:Hop.
  - destruct (Robot.availableServices self) as [services|].
    2:{ cbn [snd]. intros Hs. rewrite <- (app_nil_r calls) in Hs at 1.
        apply app_inv_head in Hs. discriminate. }
    destruct (py_getitem services _) as [sv|].
    2:{ cbn [snd]. intros Hs. rewrite <- (app_nil_r calls) in Hs at 1.
        apply app_inv_head in Hs. discriminate. }
    unfold after_version_of.
    destruct op; try discriminate Hop; cbn zeta;
      repeat match goal with
             | |- context [if ?b then _ else _] => destruct b
             end;
      rewrite ?message_is_call; cbn [snd]; intros Hs;
      try (apply app_inv_head in Hs; injection Hs as <-; split; [reflexivity|];
           first [exact I | reflexivity]).
    all: destruct (py_str_add _ sv); cbn [snd] in Hs;
      rewrite <- (app_nil_r calls) in Hs at 1; apply app_inv_head in Hs;
      discriminate.
  - rewrite message_is_call. cbn [snd]. intros Hs.
    apply app_inv_head in Hs. injection Hs as <-.
    destruct op; try discriminate Hop; split; reflexivity.
Qed.

(** X12: The four operations that do not depend on the service version do not
    read the catalogue: with any other catalogue, or none, they do the same. *)
Theorem catalogue_free_operations
    (self : Robot.t) (op : Robot.operation) (services : option pyval)
    (calls : list PostCall) :
  needs_version op = false ->
  run (with_services self services) op calls = run self op calls.
Proof.
  intros Hop. rewrite !run_unfold, Hop. reflexivity.
Qed.

(** X13: Without the key [houseCleaning] in the catalogue, [start_cleaning] and
    the four checked commands raise [KeyError] for that key and send
    nothing. *)
Theorem missing_version_is_key_error
    (self : Robot.t) (op : Robot.operation) (catalogue : gmap pystr pyval)
    (calls : list PostCall) :
  needs_version op = true ->
  Robot.availableServices self = Some (PDict catalogue) ->
  catalogue !! py "houseCleaning" = None ->
  run self op calls = (Raise (KeyError (py "houseCleaning")), calls).
Proof.
  intros Hop Hattr Hkey. rewrite run_unfold, Hop, Hattr.
  cbn [py_getitem]. by rewrite Hkey.
Qed.

(** X14: A version that is no string is not reported as unknown: building the
    message fails first, with [TypeError], and nothing is sent. *)
Theorem non_string_version_is_type_error
    (self : Robot.t) (op : Robot.operation) (services sv : pyval)
    (calls : list PostCall) :
  needs_version op = true ->
  Robot.availableServices self = Some services ->
  py_getitem services (py "houseCleaning") = Ok sv ->
  (forall s : pystr, sv <> PStr s) ->
  run self op calls = (Raise TypeError, calls).
Proof.
  intros Hop Hattr Hkey Hsv. rewrite run_unfold, Hop, Hattr, Hkey.
  unfold after_version_of.
  assert (Heq : forall lit, py_eq_str sv lit = false)
    by (intros lit; destruct sv; try reflexivity; by destruct (Hsv s)).
  assert (Hin : py_in_strs sv known_versions = false)
    by (unfold py_in_strs, known_versions; cbn [existsb]; by rewrite !Heq).
  assert (Hadd : py_str_add (py "Version ") sv = Raise TypeError)
    by (destruct sv; try reflexivity; by destruct (Hsv s)).
  destruct op; try discriminate Hop; cbn zeta; rewrite ?Heq, ?Hin, Hadd; reflexivity.
Qed.

(** X15: With the version [basic-1] the argument [navigationMode] has no effect,
    and with [minimal-2] the argument [mode] has none. *)
Theorem start_cleaning_ignores_unused_argument
    (self : Robot.t) (services : pyval) (v : pystr)
    (mode mode' navigationMode navigationMode' : option pyval)
    (calls : list PostCall) :
  Robot.availableServices self = Some services ->
  py_getitem services (py "houseCleaning") = Ok (PStr v) ->
  (v = py "basic-1" ->
   Robot.start_cleaning module_dir requests_post self mode navigationMode calls
   = Robot.start_cleaning module_dir requests_post self mode navigationMode' calls) /\
  (v = py "minimal-2" ->
   Robot.start_cleaning module_dir requests_post self mode navigationMode calls
   = Robot.start_cleaning module_dir requests_post self mode' navigationMode calls).
Proof.
  intros Hattr Hkey.
  rewrite !(start_cleaning_unfold _ _ _ _ _ _ _ _ Hattr Hkey). cbn zeta.
  rewrite !py_eq_str_spec.
  split; intros ->.
  - rewrite bool_decide_eq_true_2 by reflexivity. reflexivity.
  - rewrite bool_decide_eq_false_2 by (vm_compute; discriminate).
    rewrite bool_decide_eq_true_2 by reflexivity. reflexivity.
Qed.

Local Abbreviation state_call self := (call_of self (command (py "getRobotState"))).

Lemma state_unfold (self : Robot.t) (calls : list PostCall) :
  Robot.state module_dir requests_post self calls
  = (match checked (requests_post calls (state_call self)) with
     | Ok response => response_json response
     | Raise e => Raise e
     end, calls ++ [state_call self]).
Proof.
  unfold Robot.state, Robot.get_robot_state, bind, lift.
  fold (command (py "getRobotState")). rewrite message_is_call.
  destruct (checked _); reflexivity.
Qed.

Lemma init_unfold (serial secret : pystr) (traits : pyval) (name : option pyval)
    (calls : list PostCall) :
  Robot.__init__ module_dir requests_post serial secret traits name calls
  = match Robot.state module_dir requests_post
            (built_robot serial secret traits name None) calls with
    | (Raise e, calls') => (Raise e, calls')
    | (Ok doc, calls') =>
        match py_getitem doc (py "availableServices") with
        | Ok services => (Ok (built_robot serial secret traits name (Some services)), calls')
        | Raise e => (Raise e, calls')
        end
    end.
Proof.
  unfold Robot.__init__, bind, lift, ret, built_robot. cbn zeta.
  destruct (Robot.state _ _ _ _) as [[doc|e] calls']; [|reflexivity].
  destruct (py_getitem doc _); reflexivity.
Qed.

(** X16: A robot that [__init__] returns has the fields it was given, the URL
    made from its serial, the [Accept] header, and a catalogue: the entry
    [availableServices] of the state document, asked for in one call. *)
Theorem init_builds_robot
    (serial secret : pystr) (traits : pyval) (name : option pyval)
    (calls : list PostCall) (self : Robot.t) :
  fst (Robot.__init__ module_dir requests_post serial secret traits name calls) = Ok self ->
  exists (response : Response) (doc services : pyval),
    checked (requests_post calls (state_call (built_robot serial secret traits name None)))
      = Ok response /\
    response_json response = Ok doc /\
    py_getitem doc (py "availableServices") = Ok services /\
    self = built_robot serial secret traits name (Some services) /\
    snd (Robot.__init__ module_dir requests_post serial secret traits name calls)
      = calls ++ [state_call (built_robot serial secret traits name None)].
Proof.
  rewrite init_unfold, state_unfold.
  destruct (checked _) as [response|e]; [|discriminate].
  destruct (response_json response) as [doc|e] eqn:Hdoc; [|discriminate].
  destruct (py_getitem doc _) as [services|e] eqn:Hservices; [|discriminate].
  cbn [fst snd]. intros [= <-]. eauto 10.
Qed.

(** X17: When the state query fails, for the transport, the status or the
    document, [__init__] fails with the same exception. *)
Theorem init_fails_when_state_fails
    (serial secret : pystr) (traits : pyval) (name : option pyval)
    (calls calls' : list PostCall) (e : PyExc) :
  Robot.state module_dir requests_post (built_robot serial secret traits name None) calls
    = (Raise e, calls') ->
  Robot.__init__ module_dir requests_post serial secret traits name calls
    = (Raise e, calls').
Proof. intros Hstate. by rewrite init_unfold, Hstate. Qed.

(** X18: A state document without [availableServices] makes [__init__] raise
    [KeyError] for that key, after its one call. *)
Theorem init_needs_catalogue
    (serial secret : pystr) (traits : pyval) (name : option pyval)
    (calls : list PostCall) (response : Response) (doc : gmap pystr pyval) :
  checked (requests_post calls (state_call (built_robot serial secret traits name None)))
    = Ok response ->
  response_json response = Ok (PDict doc) ->
  doc !! py "availableServices" = None ->
  Robot.__init__ module_dir requests_post serial secret traits name calls
    = (Raise (KeyError (py "availableServices")),
       calls ++ [state_call (built_robot serial secret traits name None)]).
Proof.
  intros Hanswer Hdoc Hkey.
  rewrite init_unfold, state_unfold, Hanswer, Hdoc. cbn [py_getitem]. by rewrite Hkey.
Qed.

(** X19: The property [state] keeps nothing: read twice, it makes two calls, and
    the second result is that of a read made after the first call. *)
Theorem state_is_read_anew (self : Robot.t) (calls : list PostCall) (doc : pyval) :
  fst (Robot.state module_dir requests_post self calls) = Ok doc ->
  bind (Robot.state module_dir requests_post self)
       (fun _ => Robot.state module_dir requests_post self) calls
  = (fst (Robot.state module_dir requests_post self (calls ++ [state_call self])),
     calls ++ [state_call self; state_call self]).
Proof.
  unfold bind. rewrite !state_unfold. cbn [fst].
  destruct (match checked (requests_post calls _) with
            | Ok response => response_json response
            | Raise e => Raise e
            end); [|discriminate].
  intros _. by rewrite <- app_assoc.
Qed.

(** X20: Reading [schedule_enabled] makes one call and gives the entry
    [isScheduleEnabled] of the entry [details] of the state document. *)
Theorem schedule_enabled_reads_flag
    (self : Robot.t) (calls : list PostCall) (response : Response)
    (doc details : gmap pystr pyval) (flag : pyval) :
  checked (requests_post calls (state_call self)) = Ok response ->
  response_json response = Ok (PDict doc) ->
  doc !! py "details" = Some (PDict details) ->
  details !! py "isScheduleEnabled" = Some flag ->
  Robot.schedule_enabled module_dir requests_post self calls
  = (Ok flag, calls ++ [state_call self]).
Proof.
  intros Hanswer Hdoc Hdetails Hflag.
  unfold Robot.schedule_enabled, Robot.get_robot_state, bind, lift.
  fold (command (py "getRobotState")).
  rewrite message_is_call, Hanswer, Hdoc. cbn [py_getitem].
  rewrite Hdetails. cbn [py_getitem]. by rewrite Hflag.
Qed.

(** X21: When the state document has no [details], or [details] has no
    [isScheduleEnabled], reading [schedule_enabled] raises [KeyError] for the
    missing key, after its one call. *)
Theorem schedule_enabled_missing_key
    (self : Robot.t) (calls : list PostCall) (response : Response)
    (doc : gmap pystr pyval) :
  checked (requests_post calls (state_call self)) = Ok response ->
  response_json response = Ok (PDict doc) ->
  (doc !! py "details" = None ->
   Robot.schedule_enabled module_dir requests_post self calls
   = (Raise (KeyError (py "details")), calls ++ [state_call self])) /\
  (forall details : gmap pystr pyval,
     doc !! py "details" = Some (PDict details) ->
     details !! py "isScheduleEnabled" = None ->
     Robot.schedule_enabled module_dir requests_post self calls
     = (Raise (KeyError (py "isScheduleEnabled")), calls ++ [state_call self])).
Proof.
  intros Hanswer Hdoc.
  unfold Robot.schedule_enabled, Robot.get_robot_state, bind, lift.
  fold (command (py "getRobotState")).
  rewrite message_is_call, Hanswer, Hdoc. cbn [py_getitem].
  split.
  - by intros ->.
  - intros details -> Hflag. cbn [py_getitem]. by rewrite Hflag.
Qed.

(** X22: What is assigned to [schedule_enabled] counts by its truth value: any
    string that is not empty and any number that is not zero enables the
    schedule, while [None], zero and the empty string, list and dictionary
    disable it. *)
Theorem schedule_setter_truthiness (self : Robot.t) (calls : list PostCall) :
  let sends (enable : pyval) (cmd : pystr) :=
    snd (Robot.set_schedule_enabled module_dir requests_post self enable calls)
    = calls ++ [call_of self (command cmd)] in
  (forall s : pystr, s <> [] -> sends (PStr s) (py "enableSchedule")) /\
  (forall z : Z, z <> 0%Z -> sends (PInt z) (py "enableSchedule")) /\
  sends PNone (py "disableSchedule") /\
  sends (PInt 0) (py "disableSchedule") /\
  sends (PStr []) (py "disableSchedule") /\
  sends (PList []) (py "disableSchedule") /\
  sends (PDict ∅) (py "disableSchedule").
Proof.
  cbn zeta.
  assert (Hon : forall enable, py_truthy enable = true ->
            snd (Robot.set_schedule_enabled module_dir requests_post self enable calls)
            = calls ++ [call_of self (command (py "enableSchedule"))]).
  { intros enable Ht.
    unfold Robot.set_schedule_enabled, Robot.enable_schedule, bind, ret.
    fold (command (py "enableSchedule")). rewrite Ht, message_is_call.
    destruct (checked _); reflexivity. }
  assert (Hoff : forall enable, py_truthy enable = false ->
            snd (Robot.set_schedule_enabled module_dir requests_post self enable calls)
            = calls ++ [call_of self (command (py "disableSchedule"))]).
  { intros enable Ht.
    unfold Robot.set_schedule_enabled, Robot.disable_schedule, bind, ret.
    fold (command (py "disableSchedule")). rewrite Ht, message_is_call.
    destruct (checked _); reflexivity. }
  repeat split; try (apply Hoff; reflexivity).
  - intros s Hs. apply Hon. cbn [py_truthy]. by rewrite bool_decide_eq_false_2.
  - intros z Hz. apply Hon. cbn [py_truthy]. apply negb_true_iff, Z.eqb_neq, Hz.
Qed.
End ClientMore.

(** ** The further properties at sample data *)


Lemma signer_cannot_fail_witness :
  forallb is_scalar (Auth.secret sample_auth) = true /\
  forallb is_scalar (str_lower (fun s => s) (Auth.serial sample_auth)) = true /\
  forallb is_scalar sample_now = true /\
  (exists text, bytes_decode_utf8 (body sample_request) = Ok text) /\
  fst (Auth.__call__ (fun s => s) sample_auth sample_now sample_request) = Ok tt.
Proof.
  split; [reflexivity|]. split; [reflexivity|]. split; [reflexivity|].
  split; [eexists; vm_compute; reflexivity|].
  eapply (signer_cannot_fail (fun s => s) sample_auth sample_now sample_request);
    vm_compute; reflexivity.
Defined.

Lemma signer_signs_body_verbatim_witness :
  exists (key serial_bytes now_bytes : pybytes) (text : pystr),
    str_encode_utf8 (Auth.secret sample_auth) = Ok key /\
    str_encode_utf8 (str_lower (fun s => s) (Auth.serial sample_auth)) = Ok serial_bytes /\
    str_encode_utf8 sample_now = Ok now_bytes /\
    bytes_decode_utf8 (body sample_request) = Ok text /\
    Auth.__call__ (fun s => s) sample_auth sample_now sample_request =
      (Ok tt,
       mkRequest (method sample_request) (url sample_request)
         (header_set (py "Authorization")
            (py "NEATOAPP " ++
             hexdigest (hmac_sha256 key
                          (serial_bytes ++ [byte_of_N 10] ++ now_bytes
                             ++ ascii_bytes " GMT" ++ [byte_of_N 10] ++ body sample_request)))
            (header_set (py "Date") (sample_now ++ py " GMT") (headers sample_request)))
         (body sample_request)).
Proof.
  eexists _, _, _, _.
  split; [vm_compute; reflexivity|]. split; [vm_compute; reflexivity|].
  split; [vm_compute; reflexivity|]. split; [vm_compute; reflexivity|].
  eapply (signer_signs_body_verbatim (fun s => s) sample_auth sample_now sample_request);
    vm_compute; reflexivity.
Defined.

Lemma signer_serial_case_insensitive_witness :
  is_ascii (py "OPS01234-0123456789AB") = true /\
  Auth.__call__ (fun s => s) (Auth.__init__ (py "OPS01234-0123456789AB") (py "sEcReT"))
    sample_now sample_request =
  Auth.__call__ (fun s => s)
    (Auth.__init__ (str_lower (fun s => s) (py "OPS01234-0123456789AB")) (py "sEcReT"))
    sample_now sample_request.
Proof.
  split; [reflexivity|].
  exact (signer_serial_case_insensitive (fun s => s) (py "OPS01234-0123456789AB")
           (py "sEcReT") sample_now sample_request eq_refl).
Defined.

Lemma authorization_is_64_hex_digits_witness :
  fst (Auth.__call__ (fun s => s) sample_auth sample_now sample_request) = Ok tt /\
  exists digest : pystr,
    header_get (headers (snd (Auth.__call__ (fun s => s) sample_auth sample_now
                                sample_request)))
      (py "Authorization") = Some (py "NEATOAPP " ++ digest) /\
    length digest = 64%nat /\
    forallb is_hex_digit digest = true.
Proof.
  assert (Hok : fst (Auth.__call__ (fun s => s) sample_auth sample_now sample_request)
                = Ok tt) by (vm_compute; reflexivity).
  split; [exact Hok|].
  exact (authorization_is_64_hex_digits (fun s => s) sample_auth sample_now
           sample_request Hok).
Defined.

Lemma resigning_replaces_headers_witness :
  let later := py "Wed, 04 Nov 2026 10:00:05" in
  let once := Auth.__call__ (fun s => s) sample_auth later sample_request in
  let twice := Auth.__call__ (fun s => s) sample_auth later
                 (snd (Auth.__call__ (fun s => s) sample_auth sample_now sample_request)) in
  fst once = Ok tt /\
  fst twice = Ok tt /\
  header_get (headers (snd twice)) (py "Date") = header_get (headers (snd once)) (py "Date") /\
  body (snd twice) = body (snd once).
Proof.
  cbn zeta.
  assert (Hok : fst (Auth.__call__ (fun s => s) sample_auth
                       (py "Wed, 04 Nov 2026 10:00:05") sample_request) = Ok tt)
    by (vm_compute; reflexivity).
  split; [exact Hok|].
  exact (resigning_replaces_headers (fun s => s) sample_auth sample_now
           (py "Wed, 04 Nov 2026 10:00:05") sample_request (py "Date") Hok).
Defined.

Lemma operation_reports_http_error_witness :
  let self := sample_robot (py "basic-1") in
  let c := message_call sample_dir self (command (py "getSchedule")) in
  snd (Robot.run sample_dir (status_server 404) self Robot.GetSchedule []) = [] ++ [c] /\
  status_server 404 [] c = Ok (mkResponse 404 (Ok PNone)) /\
  (400 <= 404 < 600)%Z /\
  fst (Robot.run sample_dir (status_server 404) self Robot.GetSchedule [])
  = Raise (HTTPError 404).
Proof.
  cbn zeta.
  assert (Hstatus : (400 <= 404 < 600)%Z) by lia.
  split; [reflexivity|]. split; [reflexivity|]. split; [exact Hstatus|].
  exact (operation_reports_http_error sample_dir (status_server 404)
           (sample_robot (py "basic-1")) Robot.GetSchedule [] _
           (mkResponse 404 (Ok PNone)) eq_refl eq_refl Hstatus).
Defined.

Lemma operation_reports_transport_error_witness :
  let self := sample_robot (py "basic-1") in
  let c := message_call sample_dir self (command (py "pauseCleaning")) in
  snd (Robot.run sample_dir down_server self Robot.PauseCleaning []) = [] ++ [c] /\
  down_server [] c = Raise ConnectionError /\
  Robot.run sample_dir down_server self Robot.PauseCleaning []
  = (Raise ConnectionError, [] ++ [c]).
Proof.
  cbn zeta.
  split; [reflexivity|]. split; [reflexivity|].
  exact (operation_reports_transport_error sample_dir down_server
           (sample_robot (py "basic-1")) Robot.PauseCleaning [] _ ConnectionError
           eq_refl eq_refl).
Defined.

Lemma operation_returns_other_statuses_witness :
  let self := sample_robot (py "basic-1") in
  let c := message_call sample_dir self (command (py "getSchedule")) in
  snd (Robot.run sample_dir (status_server 304) self Robot.GetSchedule []) = [] ++ [c] /\
  status_server 304 [] c = Ok (mkResponse 304 (Ok PNone)) /\
  (304 < 400 \/ 600 <= 304)%Z /\
  fst (Robot.run sample_dir (status_server 304) self Robot.GetSchedule [])
  = Ok (mkResponse 304 (Ok PNone)).
Proof.
  cbn zeta.
  assert (Hstatus : (304 < 400 \/ 600 <= 304)%Z) by lia.
  split; [reflexivity|]. split; [reflexivity|]. split; [exact Hstatus|].
  exact (operation_returns_other_statuses sample_dir (status_server 304)
           (sample_robot (py "basic-1")) Robot.GetSchedule [] _
           (mkResponse 304 (Ok PNone)) eq_refl eq_refl Hstatus).
Defined.

Lemma payload_names_operation_witness :
  let self := sample_robot (py "basic-1") in
  let c := message_call sample_dir self (command (py "sendToBase")) in
  snd (Robot.run sample_dir (sample_server (py "basic-1")) self Robot.SendToBase [])
    = [] ++ [c] /\
  py_getitem (post_json c) (py "cmd") = Ok (PStr (py "sendToBase")) /\
  py_getitem (post_json c) (py "params") = Raise (KeyError (py "params")).
Proof.
  cbn zeta. split; [reflexivity|].
  exact (payload_names_operation sample_dir (sample_server (py "basic-1"))
           (sample_robot (py "basic-1")) Robot.SendToBase [] _ eq_refl).
Defined.

Lemma catalogue_free_operations_witness :
  needs_version Robot.EnableSchedule = false /\
  Robot.run sample_dir (sample_server (py "weird-9"))
    (with_services (sample_robot (py "weird-9")) None) Robot.EnableSchedule []
  = Robot.run sample_dir (sample_server (py "weird-9"))
      (sample_robot (py "weird-9")) Robot.EnableSchedule [].
Proof.
  split; [reflexivity|].
  exact (catalogue_free_operations sample_dir (sample_server (py "weird-9"))
           (sample_robot (py "weird-9")) Robot.EnableSchedule None [] eq_refl).
Defined.

Lemma missing_version_is_key_error_witness :
  let self := with_services (sample_robot (py "basic-1")) (Some (PDict ∅)) in
  needs_version Robot.StopCleaning = true /\
  Robot.availableServices self = Some (PDict ∅) /\
  (∅ : gmap pystr pyval) !! py "houseCleaning" = None /\
  Robot.run sample_dir (sample_server (py "basic-1")) self Robot.StopCleaning []
  = (Raise (KeyError (py "houseCleaning")), []).
Proof.
  cbn zeta.
  split; [reflexivity|]. split; [reflexivity|]. split; [reflexivity|].
  exact (missing_version_is_key_error sample_dir (sample_server (py "basic-1"))
           (with_services (sample_robot (py "basic-1")) (Some (PDict ∅)))
           Robot.StopCleaning ∅ [] eq_refl eq_refl eq_refl).
Defined.

Lemma non_string_version_is_type_error_witness :
  let services := PDict {[ py "houseCleaning" := PInt 3 ]} in
  let self := with_services (sample_robot (py "basic-1")) (Some services) in
  needs_version (Robot.StartCleaning None None) = true /\
  Robot.availableServices self = Some services /\
  py_getitem services (py "houseCleaning") = Ok (PInt 3) /\
  (forall s : pystr, PInt 3 <> PStr s) /\
  Robot.run sample_dir (sample_server (py "basic-1")) self (Robot.StartCleaning None None) []
  = (Raise TypeError, []).
Proof.
  cbn zeta.
  assert (Hsv : forall s : pystr, PInt 3 <> PStr s) by discriminate.
  split; [reflexivity|]. split; [reflexivity|]. split; [reflexivity|].
  split; [exact Hsv|].
  exact (non_string_version_is_type_error sample_dir (sample_server (py "basic-1"))
           (with_services (sample_robot (py "basic-1"))
              (Some (PDict {[ py "houseCleaning" := PInt 3 ]})))
           (Robot.StartCleaning None None) _ (PInt 3) [] eq_refl eq_refl eq_refl Hsv).
Defined.

Lemma start_cleaning_ignores_unused_argument_witness :
  let self := sample_robot (py "basic-1") in
  let services := PDict {[ py "houseCleaning" := PStr (py "basic-1") ]} in
  Robot.availableServices self = Some services /\
  py_getitem services (py "houseCleaning") = Ok (PStr (py "basic-1")) /\
  Robot.start_cleaning sample_dir (sample_server (py "basic-1")) self
    (Some (PInt 1)) (Some (PInt 1)) []
  = Robot.start_cleaning sample_dir (sample_server (py "basic-1")) self
      (Some (PInt 1)) (Some (PInt 2)) [].
Proof.
  cbn zeta. split; [reflexivity|]. split; [reflexivity|].
  exact (proj1 (start_cleaning_ignores_unused_argument sample_dir
                  (sample_server (py "basic-1")) (sample_robot (py "basic-1")) _
                  (py "basic-1") (Some (PInt 1)) None (Some (PInt 1)) (Some (PInt 2)) []
                  eq_refl eq_refl) eq_refl).
Defined.

Lemma init_builds_robot_witness :
  let init := Robot.__init__ sample_dir (sample_server (py "basic-2"))
                (py "OPS01234-0123456789AB") (py "sEcReT") (PList [])
                (Some (PStr (py "Rosie"))) [] in
  fst init = Ok (sample_robot (py "basic-2")) /\
  exists (response : Response) (doc services : pyval),
    response_json response = Ok doc /\
    py_getitem doc (py "availableServices") = Ok services /\
    sample_robot (py "basic-2")
    = built_robot (py "OPS01234-0123456789AB") (py "sEcReT") (PList [])
        (Some (PStr (py "Rosie"))) (Some services).
Proof.
  cbn zeta.
  assert (Hinit : fst (Robot.__init__ sample_dir (sample_server (py "basic-2"))
                         (py "OPS01234-0123456789AB") (py "sEcReT") (PList [])
                         (Some (PStr (py "Rosie"))) [])
                  = Ok (sample_robot (py "basic-2"))) by (vm_compute; reflexivity).
  split; [exact Hinit|].
  destruct (init_builds_robot sample_dir (sample_server (py "basic-2"))
              (py "OPS01234-0123456789AB") (py "sEcReT") (PList [])
              (Some (PStr (py "Rosie"))) [] (sample_robot (py "basic-2")) Hinit)
    as (response & doc & services & _ & Hdoc & Hservices & Hself & _).
  exists response, doc, services. auto.
Defined.

Lemma init_fails_when_state_fails_witness :
  let self0 := built_robot (py "OPS01234-0123456789AB") (py "sEcReT") (PList []) None None in
  let c := message_call sample_dir self0 (command (py "getRobotState")) in
  Robot.state sample_dir down_server self0 [] = (Raise ConnectionError, [c]) /\
  Robot.__init__ sample_dir down_server (py "OPS01234-0123456789AB") (py "sEcReT")
    (PList []) None []
  = (Raise ConnectionError, [c]).
Proof.
  cbn zeta. split; [reflexivity|].
  exact (init_fails_when_state_fails sample_dir down_server
           (py "OPS01234-0123456789AB") (py "sEcReT") (PList []) None [] _
           ConnectionError eq_refl).
Defined.

Lemma init_needs_catalogue_witness :
  let self0 := built_robot (py "OPS01234-0123456789AB") (py "sEcReT") (PList []) None None in
  let c := message_call sample_dir self0 (command (py "getRobotState")) in
  checked (empty_doc_server [] c) = Ok (mkResponse 200 (Ok (PDict ∅))) /\
  (∅ : gmap pystr pyval) !! py "availableServices" = None /\
  Robot.__init__ sample_dir empty_doc_server (py "OPS01234-0123456789AB") (py "sEcReT")
    (PList []) None []
  = (Raise (KeyError (py "availableServices")), [] ++ [c]).
Proof.
  cbn zeta. split; [reflexivity|]. split; [reflexivity|].
  exact (init_needs_catalogue sample_dir empty_doc_server
           (py "OPS01234-0123456789AB") (py "sEcReT") (PList []) None []
           (mkResponse 200 (Ok (PDict ∅))) ∅ eq_refl eq_refl eq_refl).
Defined.

Lemma state_is_read_anew_witness :
  let self := sample_robot (py "basic-1") in
  let server := sample_server (py "basic-1") in
  let c := message_call sample_dir self (command (py "getRobotState")) in
  fst (Robot.state sample_dir server self []) = Ok (sample_state (py "basic-1")) /\
  bind (Robot.state sample_dir server self) (fun _ => Robot.state sample_dir server self) []
  = (fst (Robot.state sample_dir server self ([] ++ [c])), [] ++ [c; c]).
Proof.
  cbn zeta. split; [reflexivity|].
  exact (state_is_read_anew sample_dir (sample_server (py "basic-1"))
           (sample_robot (py "basic-1")) [] (sample_state (py "basic-1")) eq_refl).
Defined.

Lemma schedule_enabled_reads_flag_witness :
  let self := sample_robot (py "basic-1") in
  let server := sample_server (py "basic-1") in
  let c := message_call sample_dir self (command (py "getRobotState")) in
  checked (server [] c) = Ok (mkResponse 200 (Ok (sample_state (py "basic-1")))) /\
  Robot.schedule_enabled sample_dir server self [] = (Ok (PBool true), [] ++ [c]).
Proof.
  cbn zeta. split; [reflexivity|].
  exact (schedule_enabled_reads_flag sample_dir (sample_server (py "basic-1"))
           (sample_robot (py "basic-1")) []
           (mkResponse 200 (Ok (sample_state (py "basic-1")))) _
           {[ py "isScheduleEnabled" := PBool true ]} (PBool true)
           eq_refl eq_refl eq_refl eq_refl).
Defined.

Lemma schedule_enabled_missing_key_witness :
  let self := sample_robot (py "basic-1") in
  let c := message_call sample_dir self (command (py "getRobotState")) in
  checked (empty_doc_server [] c) = Ok (mkResponse 200 (Ok (PDict ∅))) /\
  (∅ : gmap pystr pyval) !! py "details" = None /\
  Robot.schedule_enabled sample_dir empty_doc_server self []
  = (Raise (KeyError (py "details")), [] ++ [c]).
Proof.
  cbn zeta. split; [reflexivity|]. split; [reflexivity|].
  exact (proj1 (schedule_enabled_missing_key sample_dir empty_doc_server
                  (sample_robot (py "basic-1")) [] (mkResponse 200 (Ok (PDict ∅))) ∅
                  eq_refl eq_refl) eq_refl).
Defined.

Lemma schedule_setter_truthiness_witness :
  let self := sample_robot (py "basic-1") in
  py "false" <> [] /\
  snd (Robot.set_schedule_enabled sample_dir (sample_server (py "basic-1")) self
         (PStr (py "false")) [])
  = [] ++ [message_call sample_dir self (command (py "enableSchedule"))].
Proof.
  cbn zeta.
  assert (Hs : py "false" <> []) by discriminate.
  split; [exact Hs|].
  exact (proj1 (schedule_setter_truthiness sample_dir (sample_server (py "basic-1"))
                  (sample_robot (py "basic-1")) []) (py "false") Hs).
Defined.
